(** * Webamp: the Bluesky publishing task and the global mouse listener

    A shallow embedding of

      - [packages/skin-database/tasks/bluesky.ts]: [postToBluesky], [post],
        [buildImageEmbed], [buildPost], [uploadImageFromFilePath];
      - [packages/webamp/js/hooks.ts]: [addGlobalMouseListener],
        [removeGlobalMouseListener].

    JavaScript strings are sequences of UTF-16 code units, objects are
    ordered property lists, and awaited calls on the outside world (the skin
    store, sharp, the AT-protocol agent, the file system, Discord, the
    console) are steps of a state-and-exception monad that records every
    call in a trace. *)

From Stdlib Require Import ZArith List String Ascii Bool Lia.
From Stdlib Require QArith.
Import ListNotations.
Local Open Scope Z_scope.

(* ===================================================================== *)
(** ** JavaScript strings *)
(* ===================================================================== *)

(** A JavaScript string is a sequence of 16-bit code units; [s.length] counts
    code units. *)
Definition jsstring := list Z.

Definition js_length (s : jsstring) : Z := Z.of_nat (List.length s).

(** A string literal of the source whose characters are all ASCII. *)
Definition lit (s : string) : jsstring :=
  List.map (fun a => Z.of_N (N_of_ascii a)) (list_ascii_of_string s).

(** Template literal [`${a}b`] and [a + b]. *)
Definition js_concat (a b : jsstring) : jsstring := a ++ b.

Definition jsstring_eqb (a b : jsstring) : bool :=
  if list_eq_dec Z.eq_dec a b then true else false.

(** *** The UTF-8 byte form of a string

    This is the wire encoding of the post text (what [TextEncoder] produces):
    surrogate pairs are combined into one scalar value, a lone surrogate
    becomes U+FFFD, and each scalar value takes one to four bytes. *)

Definition is_high_surrogate (u : Z) : bool := (0xD800 <=? u) && (u <=? 0xDBFF).
Definition is_low_surrogate (u : Z) : bool := (0xDC00 <=? u) && (u <=? 0xDFFF).

Fixpoint code_points (s : jsstring) : list Z :=
  match s with
  | [] => []
  | u :: rest =>
      if is_high_surrogate u then
        match rest with
        | l :: rest' =>
            if is_low_surrogate l
            then (0x10000 + Z.shiftl (u - 0xD800) 10 + (l - 0xDC00)) :: code_points rest'
            else 0xFFFD :: code_points rest
        | [] => [0xFFFD]
        end
      else if is_low_surrogate u then 0xFFFD :: code_points rest
      else u :: code_points rest
  end.

Definition utf8_of_code_point (c : Z) : list Z :=
  if c <? 0x80 then [c]
  else if c <? 0x800 then
    [Z.lor 0xC0 (Z.shiftr c 6); Z.lor 0x80 (Z.land c 0x3F)]
  else if c <? 0x10000 then
    [Z.lor 0xE0 (Z.shiftr c 12);
     Z.lor 0x80 (Z.land (Z.shiftr c 6) 0x3F);
     Z.lor 0x80 (Z.land c 0x3F)]
  else
    [Z.lor 0xF0 (Z.shiftr c 18);
     Z.lor 0x80 (Z.land (Z.shiftr c 12) 0x3F);
     Z.lor 0x80 (Z.land (Z.shiftr c 6) 0x3F);
     Z.lor 0x80 (Z.land c 0x3F)].

Definition utf8 (s : jsstring) : list Z :=
  List.flat_map utf8_of_code_point (code_points s).

Definition byteLength (s : jsstring) : Z := Z.of_nat (List.length (utf8 s)).

(** The bytes of [bs] from offset [i] (inclusive) to offset [j] (exclusive). *)
Definition byte_slice (i j : Z) (bs : list Z) : list Z :=
  List.firstn (Z.to_nat (j - i)) (List.skipn (Z.to_nat i) bs).

Definition is_ascii (s : jsstring) : Prop :=
  List.Forall (fun u => 0 <= u < 0x80) s.

(* ===================================================================== *)
(** ** JavaScript values and object literals *)
(* ===================================================================== *)

(** The handle the platform returns for an uploaded blob; opaque to the task. *)
Definition BlobRef := jsstring.

(** Image dimensions are integers, and doubling an integer is exact in
    JavaScript's number type, so numbers are modelled as [Z]. *)
#[local] Set Warnings "-register-all".
Inductive value : Type :=
| VUndefined
| VNum (n : Z)
| VStr (s : jsstring)
| VBlob (b : BlobRef)
| VArr (items : list value)
| VObj (props : list (string * value)).

Definition obj := list (string * value).

(** Defining a property: an existing key keeps its position and takes the
    new value, a new key goes last. *)
Fixpoint obj_set (k : string) (v : value) (o : obj) : obj :=
  match o with
  | [] => [(k, v)]
  | (k', v') :: o' =>
      if String.eqb k k' then (k, v) :: o' else (k', v') :: obj_set k v o'
  end.

Fixpoint obj_get (k : string) (o : obj) : option value :=
  match o with
  | [] => None
  | (k', v) :: o' => if String.eqb k k' then Some v else obj_get k o'
  end.

(** The parts of an object literal: [k: v] and [...e]. *)
Inductive member : Type :=
| Field (k : string) (v : value)
| Spread (v : value).

(** [...e] copies the own properties of [e] in order, each one defined on
    the object under construction; spreading a non-object copies nothing. *)
Definition define_member (o : obj) (m : member) : obj :=
  match m with
  | Field k v => obj_set k v o
  | Spread (VObj src) => List.fold_left (fun acc kv => obj_set (fst kv) (snd kv) acc) src o
  | Spread _ => o
  end.

(** An object literal is evaluated member by member, left to right. *)
Definition object (ms : list member) : value :=
  VObj (List.fold_left define_member ms []).

(** Property access [v.k]. *)
Definition field (k : string) (v : value) : value :=
  match v with
  | VObj o => match obj_get k o with Some x => x | None => VUndefined end
  | _ => VUndefined
  end.

Definition str (s : string) : value := VStr (lit s).

(* ===================================================================== *)
(** ** The pure builders of bluesky.ts *)
(* ===================================================================== *)

(** [buildImageEmbed(imgBlob, width, height)] *)
Definition buildImageEmbed (imgBlob : BlobRef) (width height : Z) : value :=
  let image :=
    object [ Field "image" (VBlob imgBlob);
             Field "aspectRatio" (object [Field "width" (VNum width);
                                          Field "height" (VNum height)]);
             Field "alt" (str "") ] in
  object [ Field "$type" (str "app.bsky.embed.images");
           Field "images" (VArr [image]) ].

(* ===================================================================== *)
(** ** The outside world *)
(* ===================================================================== *)

Definition Buffer := list Z.

(** What a thrown value or a rejected promise carries. *)
Inductive exn : Type :=
| JsError (message : jsstring)      (* [new Error(message)] and runtime errors *)
| Rejected (reason : jsstring).     (* a collaborator's call failed *)

Inductive result (A : Type) : Type :=
| Ok (a : A)
| Throw (e : exn).
Arguments Ok {A} a.
Arguments Throw {A} e.

Definition is_ok {A} (r : result A) : bool :=
  match r with Ok _ => true | Throw _ => false end.

(** [sharp.kernel] *)
Inductive kernel : Type := nearest | linear | cubic | mitchell | lanczos2 | lanczos3.

(** The envelope [agent.uploadBlob] resolves with. *)
Record UploadResponse : Type := { success : bool; data_blob : BlobRef }.

(** What [agent.post] resolves with. *)
Record PostResponse : Type := { cid : jsstring; uri : jsstring }.

(** A Discord text channel and the Discord client handed to [postToBluesky]. *)
Record Channel : Type := {
  channel_id : jsstring;
  channel_send : jsstring -> result unit
}.

Record Client : Type := {
  channels_fetch : jsstring -> result (option Channel)
}.

(** The collaborators of the task, none of which is part of it: the skin
    store ([../data/skins], [../data/SkinModel]), sharp, the AT-protocol
    agent, the clock and [../config]. [fromMd5Assert] resolves with a handle
    on the skin, on which the skin's methods are called; [metadata] of an
    image sharp can decode carries its width and height. *)
Record Env : Type := {
  env_getSkinToPostToBluesky : result (option jsstring);
  env_getScreenshotBuffer : jsstring -> result Buffer;
  env_markAsPostedToBlueSky : jsstring -> jsstring -> jsstring -> result unit;
  env_fromMd5Assert : jsstring -> result jsstring;
  env_getFileName : jsstring -> result jsstring;
  env_getMuseumUrl : jsstring -> jsstring;
  env_getScreenshotFileName : jsstring -> result jsstring;
  env_sharp_metadata : Buffer -> result (Z * Z);
  env_sharp_resize : Buffer -> Z -> Z -> kernel -> result Buffer;
  env_agent_login : jsstring -> jsstring -> result unit;
  env_agent_uploadBlob : Buffer -> result UploadResponse;
  env_agent_post : value -> result PostResponse;
  env_toISOString : jsstring;
  env_tempFilePath : jsstring -> jsstring;
  TWEET_BOT_CHANNEL_ID : jsstring;
  BLUESKY_USERNAME : jsstring;
  BLUESKY_PASSWORD : jsstring
}.

(** The calls the task makes on the outside world. *)
Inductive call : Type :=
| GetSkinToPostToBluesky
| FromMd5Assert (md5 : jsstring)
| GetScreenshotBuffer (md5 : jsstring)
| SharpMetadata (input : Buffer)
| SharpResize (input : Buffer) (width height : Z) (k : kernel)
| GetFileName (skin : jsstring)
| GetScreenshotFileName (skin : jsstring)
| AgentLogin (identifier password : jsstring)
| AgentUploadBlob (data : Buffer)
| DateToISOString
| AgentPost (record : value)
| MarkAsPostedToBlueSky (md5 postId postUrl : jsstring)
| ChannelsFetch (id : jsstring)
| ChannelSend (channel content : jsstring)
| ConsoleError (message : jsstring)
| ConsoleLog (message : jsstring).

(** A call together with how it ended: [true] when it returned normally (for
    [agent.uploadBlob]: returned an envelope whose success flag is set). *)
Record event : Type := Called { ev_call : call; ev_ok : bool }.

(** The state the task runs in: the calls made so far, oldest first, and the
    files on disk. *)
Record world : Type := { trace : list event; files : list (jsstring * Buffer) }.

Definition fresh (fs : list (jsstring * Buffer)) : world :=
  {| trace := []; files := fs |}.

(* ===================================================================== *)
(** ** Asynchronous code as a state-and-exception monad *)
(* ===================================================================== *)

Definition M (A : Type) : Type := world -> result A * world.

Definition ret {A} (a : A) : M A := fun w => (Ok a, w).

Definition throw {A} (e : exn) : M A := fun w => (Throw e, w).

(** [await]: the continuation runs only once the awaited computation has
    returned normally; a throw or rejection skips it. *)
Definition bind {A B} (c : M A) (k : A -> M B) : M B :=
  fun w => match c w with
           | (Ok a, w') => k a w'
           | (Throw e, w') => (Throw e, w')
           end.

Declare Scope js_scope.
Delimit Scope js_scope with js.
Notation "x <- c ;; k" := (bind c (fun x => k))
  (at level 61, c at next level, right associativity) : js_scope.
Notation "' p <- c ;; k" := (bind c (fun x => let ' p := x in k))
  (at level 61, p pattern, c at next level, right associativity) : js_scope.
Notation "c ;; k" := (bind c (fun _ => k))
  (at level 61, right associativity) : js_scope.
Local Open Scope js_scope.

(** Perform call [c], which the world answers with [r]; [good] reads the
    reply's own success flag. *)
Definition perform_checked {A} (c : call) (r : result A) (good : A -> bool) : M A :=
  fun w =>
    let ok := match r with Ok a => good a | Throw _ => false end in
    (r, {| trace := trace w ++ [Called c ok]; files := files w |}).

Definition perform {A} (c : call) (r : result A) : M A :=
  perform_checked c r (fun _ => true).

Fixpoint lookup_file (path : jsstring) (fs : list (jsstring * Buffer)) : option Buffer :=
  match fs with
  | [] => None
  | (p, b) :: fs' => if jsstring_eqb path p then Some b else lookup_file path fs'
  end.

Definition remove_file (path : jsstring) (fs : list (jsstring * Buffer))
  : list (jsstring * Buffer) :=
  List.filter (fun pb => negb (jsstring_eqb path (fst pb))) fs.

(** [fs.writeFileSync], [fs.readFileSync], [fs.unlinkSync] *)
Definition writeFileSync (path : jsstring) (data : Buffer) : M unit :=
  fun w => (Ok tt, {| trace := trace w; files := (path, data) :: remove_file path (files w) |}).

Definition readFileSync (path : jsstring) : M Buffer :=
  fun w => match lookup_file path (files w) with
           | Some b => (Ok b, w)
           | None => (Throw (JsError (lit "ENOENT: no such file or directory")), w)
           end.

Definition unlinkSync (path : jsstring) : M unit :=
  fun w => (Ok tt, {| trace := trace w; files := remove_file path (files w) |}).

(* ===================================================================== *)
(** ** bluesky.ts *)
(* ===================================================================== *)

(** Modelled from the spec: [withBufferAsTempFile] of [../utils] is not among
    the source files. As its name and its use in [post] say, it writes the
    buffer to a temporary file named after [fileName], runs the callback on
    that file's path, removes the file and returns what the callback
    returned; when the callback fails, it fails with the same error. *)
Definition withBufferAsTempFile {A} (E : Env) (buffer : Buffer)
    (fileName : jsstring) (cb : jsstring -> M A) : M A :=
  let tempFile := env_tempFilePath E fileName in
  writeFileSync tempFile buffer ;;
  r <- cb tempFile ;;
  unlinkSync tempFile ;;
  ret r.

(** [uploadImageFromFilePath(agent, filePath)] *)
Definition uploadImageFromFilePath (E : Env) (filePath : jsstring) : M BlobRef :=
  imageBuff <- readFileSync filePath ;;
  let imgU8 := imageBuff in
  dstResp <- perform_checked (AgentUploadBlob imgU8) (env_agent_uploadBlob E imgU8) success ;;
  if negb (success dstResp)
  then throw (JsError (lit "Failed to upload image"))
  else ret (data_blob dstResp).

(** What the upload step of [post] comes to: the temporary file holds the
    image, so the image is what is read back and uploaded. *)
Definition upload_outcome (E : Env) (image : Buffer) (fileName : jsstring) (w : world)
  : result BlobRef * world :=
  let tempFile := env_tempFilePath E fileName in
  let written := (tempFile, image) :: remove_file tempFile (files w) in
  match env_agent_uploadBlob E image with
  | Ok resp =>
      if success resp
      then (Ok (data_blob resp),
            {| trace := trace w ++ [Called (AgentUploadBlob image) true];
               files := remove_file tempFile written |})
      else (Throw (JsError (lit "Failed to upload image")),
            {| trace := trace w ++ [Called (AgentUploadBlob image) false];
               files := written |})
  | Throw e =>
      (Throw e, {| trace := trace w ++ [Called (AgentUploadBlob image) false];
                   files := written |})
  end.

(** [buildPost(text, facets, imageEmbed)] *)
Definition buildPost (E : Env) (text : jsstring) (facets imageEmbed : value) : M value :=
  createdAt <- perform DateToISOString (Ok (env_toISOString E)) ;;
  ret (object [ Field "text" (VStr text);
                Field "facets" facets;
                Field "$type" (str "app.bsky.feed.post");
                Field "createdAt" (VStr createdAt);
                Field "embed" (object [ Field "$type" (str "app.bsky.embed.recordWithMedia");
                                        Spread imageEmbed ]) ]).

(** [post(md5)] *)
Definition post (E : Env) (md5 : jsstring) : M jsstring :=
  skin <- perform (FromMd5Assert md5) (env_fromMd5Assert E md5) ;;
  screenshot <- perform (GetScreenshotBuffer md5) (env_getScreenshotBuffer E md5) ;;
  ' (width, height) <- perform (SharpMetadata screenshot) (env_sharp_metadata E screenshot) ;;
  image <- perform (SharpResize screenshot (width * 2) (height * 2) nearest)
                   (env_sharp_resize E screenshot (width * 2) (height * 2) nearest) ;;
  name <- perform (GetFileName skin) (env_getFileName E skin) ;;
  let url := env_getMuseumUrl E skin in
  screenshotFileName <- perform (GetScreenshotFileName skin) (env_getScreenshotFileName E skin) ;;
  perform (AgentLogin (BLUESKY_USERNAME E) (BLUESKY_PASSWORD E))
          (env_agent_login E (BLUESKY_USERNAME E) (BLUESKY_PASSWORD E)) ;;
  blob <- withBufferAsTempFile E image screenshotFileName
            (fun filePath => uploadImageFromFilePath E filePath) ;;
  let facets :=
    VArr [ object [ Field "$type" (str "app.bsky.richtext.facet");
                    Field "index" (object [ Field "byteStart" (VNum 0);
                                            Field "byteEnd" (VNum (js_length name)) ]);
                    Field "features"
                      (VArr [ object [ Field "$type" (str "app.bsky.richtext.facet#link");
                                       Field "uri" (VStr url) ] ]) ] ] in
  postData <- buildPost E (js_concat name (lit " via the Winamp Skin Museum"))
                facets
                (buildImageEmbed blob (width * 2) (height * 2)) ;;
  postResp <- perform (AgentPost postData) (env_agent_post E postData) ;;
  let postId := cid postResp in
  let postUrl := uri postResp in
  perform (MarkAsPostedToBlueSky md5 postId postUrl)
          (env_markAsPostedToBlueSky E md5 postId postUrl) ;;
  ret postUrl.

(** [postToBluesky(discordClient, md5)] *)
Definition postToBluesky (E : Env) (discordClient : Client) (md5 : option jsstring) : M unit :=
  md5 <- match md5 with
         | None => perform GetSkinToPostToBluesky (env_getSkinToPostToBluesky E)
         | Some _ => ret md5
         end ;;
  match md5 with
  | None =>
      perform (ConsoleError (lit "No skins to post to Bluesky")) (Ok tt) ;;
      ret tt
  | Some md5 =>
      url <- post E md5 ;;
      perform (ConsoleLog (lit "Going to post to discord")) (Ok tt) ;;
      tweetBotChannel <- perform (ChannelsFetch (TWEET_BOT_CHANNEL_ID E))
                                 (channels_fetch discordClient (TWEET_BOT_CHANNEL_ID E)) ;;
      match tweetBotChannel with
      | None => throw (JsError (lit "Cannot read properties of null (reading 'send')"))
      | Some ch => perform (ChannelSend (channel_id ch) url) (channel_send ch url)
      end ;;
      perform (ConsoleLog (lit "Posted to discord")) (Ok tt)
  end.

(** *** Reading a trace *)

(** The stages of a publish attempt that act on the platform, the store or
    the chat, in pipeline order. Composition is the step that stamps
    [createdAt]. *)
Inductive stage : Type :=
| Login | Uploading | Composing | Submitting | Recording | Notifying.


Definition stage_of (c : call) : option stage :=
  match c with
  | AgentLogin _ _ => Some Login
  | AgentUploadBlob _ => Some Uploading
  | DateToISOString => Some Composing
  | AgentPost _ => Some Submitting
  | MarkAsPostedToBlueSky _ _ _ => Some Recording
  | ChannelSend _ _ => Some Notifying
  | _ => None
  end.

(** The stage steps of a trace, oldest first. *)
Fixpoint stages (tr : list event) : list stage :=
  match tr with
  | [] => []
  | e :: tr' =>
      match stage_of (ev_call e) with
      | Some s => s :: stages tr'
      | None => stages tr'
      end
  end.

(** Calls that belong to what follows a successful upload: composing,
    submitting, recording and notifying. *)
Definition follows_upload (c : call) : bool :=
  match c with
  | DateToISOString | AgentPost _ | MarkAsPostedToBlueSky _ _ _
  | ChannelsFetch _ | ChannelSend _ _ => true
  | _ => false
  end.

(** The store's view of a skin, as far as this task writes it: marked as
    posted once a [markAsPostedToBlueSky] call for it has returned. The task
    has no call that takes the mark back. *)
Definition marked_posted (tr : list event) (md5 postId postUrl : jsstring) : Prop :=
  In (Called (MarkAsPostedToBlueSky md5 postId postUrl) true) tr.



(** sharp's contract for [resize(width, height)] with the default fit: the
    output image has exactly the requested dimensions. *)
Definition sharp_resize_exact (E : Env) : Prop :=
  forall input width height k out,
    env_sharp_resize E input width height k = Ok out ->
    env_sharp_metadata E out = Ok (width, height).

(* ===================================================================== *)
(** ** hooks.ts: the reference-counted global mouse listener *)
(* ===================================================================== *)

Module Hooks.

(** Event listeners are functions, compared by identity. *)
Inductive Listener : Type :=
| globalMouseMoveHandler
| otherListener (id : nat).

Definition Listener_eqb (a b : Listener) : bool :=
  match a, b with
  | globalMouseMoveHandler, globalMouseMoveHandler => true
  | otherListener i, otherListener j => Nat.eqb i j
  | _, _ => false
  end.

(** An entry of an event target's listener list: event type and callback. *)
Definition registration : Type := string * Listener.

Definition same_registration (type : string) (l : Listener) (r : registration) : bool :=
  String.eqb type (fst r) && Listener_eqb l (snd r).

(** [EventTarget.addEventListener]: a listener already in the list is not
    added again. *)
Definition addEventListener (type : string) (l : Listener)
    (ls : list registration) : list registration :=
  if List.existsb (same_registration type l) ls then ls else ls ++ [(type, l)].

(** [EventTarget.removeEventListener] *)
Definition removeEventListener (type : string) (l : Listener)
    (ls : list registration) : list registration :=
  List.filter (fun r => negb (same_registration type l r)) ls.

Inductive DomCall : Type :=
| AddEventListener (type : string) (l : Listener)
| RemoveEventListener (type : string) (l : Listener).

(** The module-level counter, the listener list of [window.document], and
    the calls made on [window.document] so far, oldest first. *)
Record State : Type := {
  listenerRefCount : Z;
  document_listeners : list registration;
  document_calls : list DomCall
}.

(** [addGlobalMouseListener()] *)
Definition addGlobalMouseListener (s : State) : State :=
  let s1 :=
    if listenerRefCount s =? 0 then
      {| listenerRefCount := listenerRefCount s;
         document_listeners :=
           addEventListener "mousemove" globalMouseMoveHandler (document_listeners s);
         document_calls :=
           document_calls s ++ [AddEventListener "mousemove" globalMouseMoveHandler] |}
    else s in
  {| listenerRefCount := listenerRefCount s1 + 1;
     document_listeners := document_listeners s1;
     document_calls := document_calls s1 |}.

(** [removeGlobalMouseListener()] *)
Definition removeGlobalMouseListener (s : State) : State :=
  let s1 := {| listenerRefCount := listenerRefCount s - 1;
               document_listeners := document_listeners s;
               document_calls := document_calls s |} in
  if listenerRefCount s1 =? 0 then
    {| listenerRefCount := listenerRefCount s1;
       document_listeners :=
         removeEventListener "mousemove" globalMouseMoveHandler (document_listeners s1);
       document_calls :=
         document_calls s1 ++ [RemoveEventListener "mousemove" globalMouseMoveHandler] |}
  else s1.

(** The module as loaded: the counter is zero and nothing has been called;
    [others] are the listeners other code has put on the document. *)
Definition initial (others : list registration) : State :=
  {| listenerRefCount := 0; document_listeners := others; document_calls := [] |}.

Inductive Op : Type := Add | Remove.

Definition step (s : State) (o : Op) : State :=
  match o with
  | Add => addGlobalMouseListener s
  | Remove => removeGlobalMouseListener s
  end.

Definition run (ops : list Op) (s : State) : State := List.fold_left step ops s.

Definition additions (ops : list Op) : nat :=
  List.length (List.filter (fun o => match o with Add => true | Remove => false end) ops).

Definition removals (ops : list Op) : nat :=
  List.length (List.filter (fun o => match o with Add => false | Remove => true end) ops).

(** Removals never exceed prior additions: at every removal, the removals
    made so far, this one included, are at most the additions made so far. *)
Fixpoint balanced_from (adds rems : nat) (ops : list Op) : bool :=
  match ops with
  | [] => true
  | Add :: ops' => balanced_from (S adds) rems ops'
  | Remove :: ops' => (S rems <=? adds)%nat && balanced_from adds (S rems) ops'
  end.

Definition balanced (ops : list Op) : bool := balanced_from 0 0 ops.

(** How many times the handler is in the document's listener list. *)
Definition attached (s : State) : nat :=
  List.length (List.filter (same_registration "mousemove" globalMouseMoveHandler)
                           (document_listeners s)).

Definition registered (s : State) : bool :=
  List.existsb (same_registration "mousemove" globalMouseMoveHandler) (document_listeners s).

Definition attach_calls (s : State) : nat :=
  List.length (List.filter (fun c => match c with AddEventListener _ _ => true | _ => false end)
                           (document_calls s)).

Definition detach_calls (s : State) : nat :=
  List.length (List.filter (fun c => match c with RemoveEventListener _ _ => true | _ => false end)
                           (document_calls s)).

(** How many handlers a counter value stands for: one while it is positive. *)
Definition holds (count : Z) : nat := if 0 <? count then 1%nat else 0%nat.

(** The link between the counter, the listener list and the calls made on
    the document. *)
Record consistent (s : State) : Prop := {
  count_nonneg : 0 <= listenerRefCount s;
  attached_once : attached s = holds (listenerRefCount s);
  calls_paired : attach_calls s = (detach_calls s + holds (listenerRefCount s))%nat
}.

End Hooks.

(* ===================================================================== *)
(** ** A concrete world to run the task in *)
(* ===================================================================== *)

Module Scenario.

(** A small stand-in for sharp. An image is encoded as its width, its
    height and its pixels, row by row, one byte each. *)
Definition metadata (input : Buffer) : result (Z * Z) :=
  match input with
  | w :: h :: _ =>
      if (0 <? w) && (0 <? h) then Ok (w, h)
      else Throw (Rejected (lit "Input buffer contains unsupported image format"))
  | _ => Throw (Rejected (lit "Input buffer contains unsupported image format"))
  end.

(** Nearest-neighbour sampling: output pixel [(x, y)] is the input pixel at
    [(x * w / width, y * h / height)]. Every kernel is answered with it. *)
Definition resize (input : Buffer) (width height : Z) (k : kernel) : result Buffer :=
  match input with
  | w :: h :: pixels =>
      if (0 <? w) && (0 <? h) && (0 <? width) && (0 <? height) then
        Ok (width :: height ::
            List.flat_map
              (fun y =>
                 List.map
                   (fun x =>
                      List.nth (Z.to_nat ((Z.of_nat y * h / height) * w + Z.of_nat x * w / width))
                               pixels 0)
                   (List.seq 0 (Z.to_nat width)))
              (List.seq 0 (Z.to_nat height)))
      else Throw (Rejected (lit "Expected positive integer for width"))
  | _ => Throw (Rejected (lit "Input buffer contains unsupported image format"))
  end.

(** A 2x2 screenshot. *)
Definition screenshot : Buffer := [2; 2; 10; 20; 30; 40].

Definition md5 : jsstring := lit "d6010aa35bed659bc1311820daa4b341".

Definition museumUrl : jsstring := lit "https://skins.webamp.org/skin/d6010aa35bed659bc1311820daa4b341".

Definition postUri : jsstring := lit "at://did:plc:museum/app.bsky.feed.post/p1".

(** A store holding one skin called [name], a platform that answers the
    upload with [upload] and the submission with [submit]. *)
Definition museum (name : jsstring) (upload : result UploadResponse)
    (submit : result PostResponse) : Env :=
  {| env_getSkinToPostToBluesky := Ok (Some md5);
     env_getScreenshotBuffer := fun _ => Ok screenshot;
     env_markAsPostedToBlueSky := fun _ _ _ => Ok tt;
     env_fromMd5Assert := fun m => Ok m;
     env_getFileName := fun _ => Ok name;
     env_getMuseumUrl := fun _ => museumUrl;
     env_getScreenshotFileName := fun _ => Ok (lit "screenshot.png");
     env_sharp_metadata := metadata;
     env_sharp_resize := resize;
     env_agent_login := fun _ _ => Ok tt;
     env_agent_uploadBlob := fun _ => upload;
     env_agent_post := fun _ => submit;
     env_toISOString := lit "2024-11-20T17:00:00.000Z";
     env_tempFilePath := fun fileName => lit "/tmp/" ++ fileName;
     TWEET_BOT_CHANNEL_ID := lit "1234";
     BLUESKY_USERNAME := lit "museum.bsky.social";
     BLUESKY_PASSWORD := lit "secret" |}.

Definition uploaded : result UploadResponse :=
  Ok {| success := true; data_blob := lit "b1" |}.

Definition upload_refused : result UploadResponse :=
  Ok {| success := false; data_blob := [] |}.

Definition submitted : result PostResponse :=
  Ok {| cid := lit "p1"; uri := postUri |}.

(** A store with nothing left to post. *)
Definition empty_museum : Env :=
  let E := museum (lit "Foo Skin") uploaded submitted in
  {| env_getSkinToPostToBluesky := Ok None;
     env_getScreenshotBuffer := env_getScreenshotBuffer E;
     env_markAsPostedToBlueSky := env_markAsPostedToBlueSky E;
     env_fromMd5Assert := env_fromMd5Assert E;
     env_getFileName := env_getFileName E;
     env_getMuseumUrl := env_getMuseumUrl E;
     env_getScreenshotFileName := env_getScreenshotFileName E;
     env_sharp_metadata := env_sharp_metadata E;
     env_sharp_resize := env_sharp_resize E;
     env_agent_login := env_agent_login E;
     env_agent_uploadBlob := env_agent_uploadBlob E;
     env_agent_post := env_agent_post E;
     env_toISOString := env_toISOString E;
     env_tempFilePath := env_tempFilePath E;
     TWEET_BOT_CHANNEL_ID := TWEET_BOT_CHANNEL_ID E;
     BLUESKY_USERNAME := BLUESKY_USERNAME E;
     BLUESKY_PASSWORD := BLUESKY_PASSWORD E |}.

(** A Discord client whose channel answers [send] with [sent]. *)
Definition discord (sent : result unit) : Client :=
  {| channels_fetch := fun id =>
       Ok (Some {| channel_id := id; channel_send := fun _ => sent |}) |}.


Definition discord_down_error : result PostResponse := Throw (Rejected (lit "Missing Access")).


Definition submission_refused_run : result unit * world :=
  postToBluesky (museum (lit "Foo Skin") uploaded discord_down_error) (discord (Ok tt))
    None (fresh []).

(** A run in which the platform answers the upload with a failure envelope. *)
Definition upload_refused_run : result unit * world :=
  postToBluesky (museum (lit "Foo Skin") upload_refused submitted) (discord (Ok tt))
    None (fresh []).

(** The publish of the skin "Foo Skin". *)
Definition foo_skin_run : result jsstring * world :=
  post (museum (lit "Foo Skin") uploaded submitted) md5 (fresh []).

(** The name "é": one code unit, two bytes in UTF-8. *)
Definition e_acute : jsstring := [233].

Definition e_acute_run : result jsstring * world :=
  post (museum e_acute uploaded submitted) md5 (fresh []).

End Scenario.

(* ===================================================================== *)
(** ** More of the task's behaviour: what is needed to state it *)
(* ===================================================================== *)

(** The run [c], made after the calls [before]. *)
Definition after_calls {A} (before : list event) (c : result A * world) : result A * world :=
  (fst c, {| trace := before ++ trace (snd c); files := files (snd c) |}).

(** Calls that record the post in the store or notify the chat. *)
Definition records_or_notifies (c : call) : bool :=
  match c with
  | MarkAsPostedToBlueSky _ _ _ | ChannelsFetch _ | ChannelSend _ _ => true
  | _ => false
  end.

(** Calls on the Discord client. *)
Definition contacts_discord (c : call) : bool :=
  match c with
  | ChannelsFetch _ | ChannelSend _ _ => true
  | _ => false
  end.

Module Outage.

(** The store of [Scenario.museum], failing to record a post. *)
Definition store_down : Env :=
  let E := Scenario.museum (lit "Foo Skin") Scenario.uploaded Scenario.submitted in
  {| env_getSkinToPostToBluesky := env_getSkinToPostToBluesky E;
     env_getScreenshotBuffer := env_getScreenshotBuffer E;
     env_markAsPostedToBlueSky := fun _ _ _ => Throw (Rejected (lit "SQLITE_BUSY"));
     env_fromMd5Assert := env_fromMd5Assert E;
     env_getFileName := env_getFileName E;
     env_getMuseumUrl := env_getMuseumUrl E;
     env_getScreenshotFileName := env_getScreenshotFileName E;
     env_sharp_metadata := env_sharp_metadata E;
     env_sharp_resize := env_sharp_resize E;
     env_agent_login := env_agent_login E;
     env_agent_uploadBlob := env_agent_uploadBlob E;
     env_agent_post := env_agent_post E;
     env_toISOString := env_toISOString E;
     env_tempFilePath := env_tempFilePath E;
     TWEET_BOT_CHANNEL_ID := TWEET_BOT_CHANNEL_ID E;
     BLUESKY_USERNAME := BLUESKY_USERNAME E;
     BLUESKY_PASSWORD := BLUESKY_PASSWORD E |}.

Definition store_down_run : result unit * world :=
  postToBluesky store_down (Scenario.discord (Ok tt)) None (fresh []).

(** A Discord client that does not know the channel. *)
Definition no_channel : Client := {| channels_fetch := fun _ => Ok None |}.

Definition no_channel_run : result unit * world :=
  postToBluesky (Scenario.museum (lit "Foo Skin") Scenario.uploaded Scenario.submitted)
    no_channel None (fresh []).

End Outage.

(* ===================================================================== *)
(** ** hooks.ts: the other hooks *)
(* ===================================================================== *)

Module HooksMore.
Import Hooks.

(** The counter and the document agree, whatever the counter's sign. *)
Record linked (s : State) : Prop := {
  linked_attached : attached s = holds (listenerRefCount s);
  linked_calls : attach_calls s = (detach_calls s + holds (listenerRefCount s))%nat
}.

(** The listeners of the document other than the mouse handler. *)
Definition foreign (ls : list registration) : list registration :=
  List.filter (fun r => negb (same_registration "mousemove" globalMouseMoveHandler r)) ls.

End HooksMore.

Module Pointer.
Import Hooks.

(** [pageX], [pageY] and the sides of a [DOMRect] are finite numbers; the
    code copies and compares them, which rationals do exactly. *)
Definition number : Type := QArith_base.Q.

Record Position : Type := { pageX : number; pageY : number }.

(** The module's state: the counter with the document, and
    [cursorPositionRef.current]. *)
Record Page : Type := { mouse : State; cursorPositionRef : Position }.

Definition origin : Position :=
  {| pageX := QArith_base.Qmake 0 1; pageY := QArith_base.Qmake 0 1 |}.

(** The position with integer coordinates [x], [y]. *)
Definition at_ (x y : Z) : Position :=
  {| pageX := QArith_base.Qmake x 1; pageY := QArith_base.Qmake y 1 |}.

Definition loaded (others : list registration) : Page :=
  {| mouse := initial others; cursorPositionRef := origin |}.

(** The body of [globalMouseMoveHandler]. *)
Definition onMouseMove (ev : Position) (p : Page) : Page :=
  {| mouse := mouse p;
     cursorPositionRef := {| pageX := pageX ev; pageY := pageY ev |} |}.

(** Calling a listener of the document: the handlers of other code cannot
    reach [cursorPositionRef], which the module does not export. *)
Definition call_listener (l : Listener) (ev : Position) (p : Page) : Page :=
  match l with
  | globalMouseMoveHandler => onMouseMove ev p
  | otherListener _ => p
  end.

(** A [mousemove] event reaching the document: its listeners for that
    event type are called in order. *)
Definition dispatchMouseMove (ev : Position) (p : Page) : Page :=
  List.fold_left
    (fun q r => if String.eqb "mousemove" (fst r) then call_listener (snd r) ev q else q)
    (document_listeners (mouse p)) p.

Inductive Input : Type :=
| Acquire                       (* [addGlobalMouseListener()] *)
| Release                       (* [removeGlobalMouseListener()] *)
| MouseMove (ev : Position).

Definition input_step (p : Page) (i : Input) : Page :=
  match i with
  | Acquire => {| mouse := addGlobalMouseListener (mouse p);
                  cursorPositionRef := cursorPositionRef p |}
  | Release => {| mouse := removeGlobalMouseListener (mouse p);
                  cursorPositionRef := cursorPositionRef p |}
  | MouseMove ev => dispatchMouseMove ev p
  end.

Definition play (ins : list Input) (p : Page) : Page := List.fold_left input_step ins p.

(** The position of the last mouse move made while the acquisitions so far
    outnumbered the releases; [seen] when there is none. *)
Fixpoint last_tracked (users : Z) (seen : Position) (ins : list Input) : Position :=
  match ins with
  | [] => seen
  | Acquire :: ins' => last_tracked (users + 1) seen ins'
  | Release :: ins' => last_tracked (users - 1) seen ins'
  | MouseMove ev :: ins' => last_tracked users (if 0 <? users then ev else seen) ins'
  end.

Record DOMRect : Type := {
  rect_left : number; rect_right : number; rect_top : number; rect_bottom : number
}.

(** The hover state the layout effect of [useIsHovered] sets for [node]. *)
Definition useIsHovered_layout (node : option DOMRect) (cursor : Position) : bool :=
  match node with
  | None => false
  | Some domRect =>
      QArith_base.Qle_bool (rect_left domRect) (pageX cursor) &&
      QArith_base.Qle_bool (pageX cursor) (rect_right domRect) &&
      QArith_base.Qle_bool (rect_top domRect) (pageY cursor) &&
      QArith_base.Qle_bool (pageY cursor) (rect_bottom domRect)
  end.

End Pointer.

Module Mounting.
Import Hooks.

(** [useCursorPositionRef]: the effect, which React runs when a component
    using the hook mounts, and the cleanup it returns, run at unmount. *)
Definition useCursorPositionRef_effect (s : State) : State := addGlobalMouseListener s.
Definition useCursorPositionRef_cleanup (s : State) : State := removeGlobalMouseListener s.

Inductive Lifecycle : Type :=
| Mount (component : nat)
| Unmount (component : nat).

Record Tree : Type := { mounted : list nat; listener : State }.

Fixpoint without (c : nat) (l : list nat) : list nat :=
  match l with
  | [] => []
  | x :: l' => if Nat.eqb c x then l' else x :: without c l'
  end.

(** A component mounts when it is not mounted and unmounts when it is. *)
Definition lifecycle_step (t : Tree) (e : Lifecycle) : Tree :=
  match e with
  | Mount c =>
      if List.existsb (Nat.eqb c) (mounted t) then t
      else {| mounted := c :: mounted t;
              listener := useCursorPositionRef_effect (listener t) |}
  | Unmount c =>
      if List.existsb (Nat.eqb c) (mounted t)
      then {| mounted := without c (mounted t);
              listener := useCursorPositionRef_cleanup (listener t) |}
      else t
  end.

Definition live (es : list Lifecycle) (t : Tree) : Tree := List.fold_left lifecycle_step es t.

Definition empty_tree (others : list registration) : Tree :=
  {| mounted := []; listener := initial others |}.

End Mounting.

Module ClickAway.
Import Hooks.



(** The listeners of [window.document] and how many times [callback] has
    been called. *)
Record Page : Type := { document_click : list registration; callback_calls : nat }.













End ClickAway.

Module PromiseValue.

(** The hook's state for a component: [value], and the [disposed] flag of
    every run of the effect so far, oldest first. *)
Record Hook (T : Type) : Type := { value : option T; disposed : list bool }.
Arguments value {T} h.
Arguments disposed {T} h.

(** The cleanup of the latest run sets its flag. *)
Fixpoint dispose_latest (flags : list bool) : list bool :=
  match flags with
  | [] => []
  | [_] => [true]
  | f :: flags' => f :: dispose_latest flags'
  end.

Inductive Event (T : Type) : Type :=
| Rerender                 (* [propValue] changed: cleanup, then a new run *)
| Unmount                  (* cleanup *)
| Settled (run : nat) (resolvedValue : T).
                           (* the promise given to run [run] resolved: its
                              [then] callback runs *)
Arguments Rerender {T}.
Arguments Unmount {T}.
Arguments Settled {T} run resolvedValue.

(** [useState(null)] and the first run of the effect. *)
Definition mount {T} : Hook T := {| value := None; disposed := [false] |}.

Definition step {T} (h : Hook T) (e : Event T) : Hook T :=
  match e with
  | Rerender => {| value := value h; disposed := dispose_latest (disposed h) ++ [false] |}
  | Unmount => {| value := value h; disposed := dispose_latest (disposed h) |}
  | Settled run resolvedValue =>
      match List.nth_error (disposed h) run with
      | Some false => {| value := Some resolvedValue; disposed := disposed h |}
      | _ => h
      end
  end.

Definition history {T} (es : list (Event T)) (h : Hook T) : Hook T := List.fold_left step es h.

Definition rerenders {T} (es : list (Event T)) : nat :=
  List.length (List.filter (fun e => match e with Rerender => true | _ => false end) es).

(** Whether the component is unmounted at the end of [es]. *)
Definition gone {T} (es : list (Event T)) : bool :=
  List.fold_left (fun g e => match e with
                             | Rerender => false
                             | Unmount => true
                             | Settled _ _ => g
                             end) es false.

(** Every run but the latest is disposed. *)
Definition earlier_disposed (flags : list bool) : Prop :=
  forall k, (S k < List.length flags)%nat -> List.nth_error flags k = Some true.

(** What holds of the flags after the history [es]. *)
Record tidy {T} (es : list (Event T)) (h : Hook T) : Prop := {
  tidy_length : List.length (disposed h) = S (rerenders es);
  tidy_earlier : earlier_disposed (disposed h);
  tidy_latest : List.nth_error (disposed h) (rerenders es) = Some (gone es)
}.

End PromiseValue.


(* ===================================================================== *)
(** * Properties *)
(* ===================================================================== *)

(** ** Strings and files *)

Lemma jsstring_eqb_refl s : jsstring_eqb s s = true.
Proof. unfold jsstring_eqb. destruct (list_eq_dec Z.eq_dec s s); congruence. Qed.

Lemma lookup_file_written path data fs : lookup_file path ((path, data) :: fs) = Some data.
Proof. simpl. now rewrite jsstring_eqb_refl. Qed.

Lemma code_points_ascii_app s t : is_ascii s -> code_points (s ++ t) = s ++ code_points t.
Proof.
  induction 1 as [|u s Hu Hs IH]; [reflexivity|].
  cbn [app code_points].
  replace (is_high_surrogate u) with false by (unfold is_high_surrogate; lia).
  replace (is_low_surrogate u) with false by (unfold is_low_surrogate; lia).
  now rewrite IH.
Qed.

Lemma utf8_ascii_app s t : is_ascii s -> utf8 (s ++ t) = s ++ utf8 t.
Proof.
  intros Hs. unfold utf8. rewrite (code_points_ascii_app s t Hs), flat_map_app. f_equal.
  clear t. induction Hs as [|u s Hu Hs IH]; [reflexivity|].
  cbn [flat_map]. rewrite IH. unfold utf8_of_code_point.
  replace (u <? 128) with true by lia. reflexivity.
Qed.

Lemma utf8_ascii s : is_ascii s -> utf8 s = s.
Proof.
  intros Hs. rewrite <- (app_nil_r s) at 1. rewrite (utf8_ascii_app s [] Hs).
  apply app_nil_r.
Qed.

(** ** Running the task *)

Lemma upload_step E image fileName w :
  withBufferAsTempFile E image fileName (fun filePath => uploadImageFromFilePath E filePath) w
  = upload_outcome E image fileName w.
Proof.
  unfold withBufferAsTempFile, uploadImageFromFilePath, upload_outcome, bind,
    writeFileSync, readFileSync, unlinkSync, perform_checked, ret, throw.
  cbn [files trace]. rewrite lookup_file_written. cbn [files trace].
  destruct (env_agent_uploadBlob E image) as [resp|e]; [|reflexivity].
  destruct (success resp); reflexivity.
Qed.

(** One step of a symbolic run: the upload step as a whole, or a case
    distinction on what the world answers next. *)
Ltac step_in H :=
  match type of H with
  | context [withBufferAsTempFile ?E ?i ?n _ ?w] =>
      rewrite (upload_step E i n w) in H; unfold upload_outcome in H
  | context [match ?x with _ => _ end] =>
      lazymatch x with
      | context [match _ with _ => _ end] => fail
      | _ => destruct x eqn:?
      end
  end.

Ltac explore H :=
  cbv beta delta [postToBluesky post buildPost bind perform perform_checked ret throw fresh] in H;
  cbn [trace files app] in H;
  repeat (step_in H; cbn [trace files app] in H).

(** All the ways the run [c] can go, one goal each. *)
Ltac run_of c r w1 H := destruct c as [r w1] eqn:H; explore H; try (injection H as <- <-).

Ltac in_trace H :=
  cbn [fst snd trace In] in H;
  repeat (destruct H as [H | H]); try discriminate H; try contradiction H.

Ltac find_in := cbn [In]; repeat (first [left; reflexivity | right]).


Ltac ends_with_last :=
  match goal with
  | |- exists before, ?l = _ => exists (removelast l); reflexivity
  end.



(** The document [post] submits. *)
Lemma submitted_post E md5 fs doc ok :
  In (Called (AgentPost doc) ok) (trace (snd (post E md5 (fresh fs)))) ->
  exists skin screenshot w h image name resp,
    env_fromMd5Assert E md5 = Ok skin /\
    env_getScreenshotBuffer E md5 = Ok screenshot /\
    env_sharp_metadata E screenshot = Ok (w, h) /\
    env_sharp_resize E screenshot (w * 2) (h * 2) nearest = Ok image /\
    env_getFileName E skin = Ok name /\
    env_agent_uploadBlob E image = Ok resp /\ success resp = true /\
    doc =
      object
        [ Field "text" (VStr (js_concat name (lit " via the Winamp Skin Museum")));
          Field "facets"
            (VArr [ object [ Field "$type" (str "app.bsky.richtext.facet");
                             Field "index" (object [ Field "byteStart" (VNum 0);
                                                     Field "byteEnd" (VNum (js_length name)) ]);
                             Field "features"
                               (VArr [ object [ Field "$type" (str "app.bsky.richtext.facet#link");
                                                Field "uri" (VStr (env_getMuseumUrl E skin)) ] ]) ] ]);
          Field "$type" (str "app.bsky.feed.post");
          Field "createdAt" (VStr (env_toISOString E));
          Field "embed" (object [ Field "$type" (str "app.bsky.embed.recordWithMedia");
                                  Spread (buildImageEmbed (data_blob resp) (w * 2) (h * 2)) ]) ].
Proof.
  run_of (post E md5 (fresh fs)) r w1 H; intros Hin; in_trace Hin;
    injection Hin as <- <-;
    do 7 eexists; repeat split; eassumption || reflexivity.
Qed.


(** The scenario of the skin "Foo Skin": the text, the facet from byte 0 to
    byte 8 and the doubled dimensions of the 2x2 screenshot. *)
Example foo_skin_post :
  exists doc facet image,
    In (Called (AgentPost doc) true) (trace (snd Scenario.foo_skin_run)) /\
    field "text" doc = str "Foo Skin via the Winamp Skin Museum" /\
    field "facets" doc = VArr [facet] /\
    field "index" facet = object [Field "byteStart" (VNum 0); Field "byteEnd" (VNum 8)] /\
    field "images" (field "embed" doc) = VArr [image] /\
    field "aspectRatio" image = object [Field "width" (VNum 4); Field "height" (VNum 4)] /\
    fst Scenario.foo_skin_run = Ok Scenario.postUri.
Proof.
  do 3 eexists. split; [vm_compute; find_in|]. repeat split.
Qed.

(** ** The link facet *)

(** For a non-empty name of ASCII characters the facet of [post], from byte 0
    to byte [name.length], does span the name in the UTF-8 form of the text. *)
Lemma facet_range_ascii (name : jsstring) :
  is_ascii name -> name <> [] ->
  let text := js_concat name (lit " via the Winamp Skin Museum") in
  0 <= 0 < js_length name /\ js_length name <= byteLength text /\
  byte_slice 0 (js_length name) (utf8 text) = utf8 name.
Proof.
  intros Hascii Hne text. unfold text, js_concat, byteLength, byte_slice, js_length.
  rewrite (utf8_ascii_app _ _ Hascii), (utf8_ascii _ Hascii), length_app.
  repeat split; try lia.
  - destruct name; [congruence | cbn [List.length]; lia].
  - rewrite Z.sub_0_r, Nat2Z.id. cbn [Z.to_nat skipn].
    rewrite firstn_app, firstn_all, Nat.sub_diag. cbn [firstn]. apply app_nil_r.
Qed.

(** In every post submitted, the facet ends at the number of UTF-16 code
    units of the name. *)
Lemma facet_end_is_length E md5 fs doc ok :
  In (Called (AgentPost doc) ok) (trace (snd (post E md5 (fresh fs)))) ->
  exists skin name facet,
    env_fromMd5Assert E md5 = Ok skin /\ env_getFileName E skin = Ok name /\
    field "facets" doc = VArr [facet] /\
    field "byteEnd" (field "index" facet) = VNum (js_length name).
Proof.
  intros Hin.
  destruct (submitted_post _ _ _ _ _ Hin)
    as (skin & screenshot & w & h & image & name & resp & Hs & _ & _ & _ & Hn & _ & _ & ->).
  exists skin, name. eexists. repeat split; eassumption.
Qed.

(** C1, at the name "é" (one code unit, U+00E9; bytes C3 A9 in UTF-8): the
    post submitted has a facet from byte 0 to byte 1, which cuts the name's
    two-byte encoding in half; the range does not span the name. *)
Lemma facet_range_multibyte_name :
  exists doc facet,
    In (Called (AgentPost doc) true) (trace (snd Scenario.e_acute_run)) /\
    field "text" doc = VStr (Scenario.e_acute ++ lit " via the Winamp Skin Museum") /\
    field "facets" doc = VArr [facet] /\
    field "byteStart" (field "index" facet) = VNum 0 /\
    field "byteEnd" (field "index" facet) = VNum 1 /\
    utf8 Scenario.e_acute = [195; 169] /\
    byte_slice 0 1 (utf8 (Scenario.e_acute ++ lit " via the Winamp Skin Museum")) = [195] /\
    byte_slice 0 1 (utf8 (Scenario.e_acute ++ lit " via the Winamp Skin Museum"))
      <> utf8 Scenario.e_acute.
Proof.
  do 2 eexists. split; [vm_compute; find_in|].
  repeat split. vm_compute. discriminate.
Qed.

(** ** The embed *)

(** C2: in the document [buildPost] returns, the embed's type discriminator
    is the image embed's, not the record-with-media one: spreading the image
    embed after the [$type] property overwrites it. The embed is the image
    embed itself, and has no [media] member that would nest it. *)
Theorem embed_discriminator_overwritten E text facets imgBlob width height w :
  exists doc,
    fst (buildPost E text facets (buildImageEmbed imgBlob width height) w) = Ok doc /\
    field "$type" (field "embed" doc) = str "app.bsky.embed.images" /\
    field "$type" (field "embed" doc) <> str "app.bsky.embed.recordWithMedia" /\
    field "media" (field "embed" doc) = VUndefined /\
    field "embed" doc = buildImageEmbed imgBlob width height.
Proof.
  eexists. split; [reflexivity|]. repeat split. cbv. discriminate.
Qed.

(** C9: the image embed holds exactly one image entry, whose blob is the one
    given, whose alt text is the empty string and whose aspect ratio is the
    given width and height. *)
Theorem image_embed_shape (imgBlob : BlobRef) (width height : Z) :
  exists image,
    field "images" (buildImageEmbed imgBlob width height) = VArr [image] /\
    field "image" image = VBlob imgBlob /\
    field "alt" image = VStr [] /\
    field "aspectRatio" image =
      object [Field "width" (VNum width); Field "height" (VNum height)] /\
    field "width" (field "aspectRatio" image) = VNum width /\
    field "height" (field "aspectRatio" image) = VNum height.
Proof. eexists. repeat split. Qed.

(** C6: the post submitted for a skin named [name] with museum url
    [getMuseumUrl()] has the text [name ++ " via the Winamp Skin Museum"],
    exactly one facet, which starts at byte 0 and whose only feature is a link
    to the museum url, and one image: the blob the platform returned for the
    upload of the transformed screenshot, with the aspect ratio
    [width], [height] that [post] asked sharp to resize the screenshot to,
    twice the screenshot's own width and height. Under sharp's contract these
    are the dimensions of the transformed image that was uploaded. *)
Theorem composed_post E md5 fs doc ok :
  In (Called (AgentPost doc) ok) (trace (snd (post E md5 (fresh fs)))) ->
  exists skin name screenshot w h facet feature image,
    env_fromMd5Assert E md5 = Ok skin /\
    env_getFileName E skin = Ok name /\
    env_getScreenshotBuffer E md5 = Ok screenshot /\
    env_sharp_metadata E screenshot = Ok (w, h) /\
    field "text" doc = VStr (name ++ lit " via the Winamp Skin Museum") /\
    field "facets" doc = VArr [facet] /\
    field "byteStart" (field "index" facet) = VNum 0 /\
    field "features" facet = VArr [feature] /\
    feature = object [ Field "$type" (str "app.bsky.richtext.facet#link");
                       Field "uri" (VStr (env_getMuseumUrl E skin)) ] /\
    field "images" (field "embed" doc) = VArr [image] /\
    field "aspectRatio" image =
      object [Field "width" (VNum (w * 2)); Field "height" (VNum (h * 2))] /\
    exists width height transformed reply,
      In (Called (SharpResize screenshot width height nearest) true)
         (trace (snd (post E md5 (fresh fs)))) /\
      env_sharp_resize E screenshot width height nearest = Ok transformed /\
      In (Called (AgentUploadBlob transformed) true) (trace (snd (post E md5 (fresh fs)))) /\
      env_agent_uploadBlob E transformed = Ok reply /\
      field "image" image = VBlob (data_blob reply) /\
      field "aspectRatio" image =
        object [Field "width" (VNum width); Field "height" (VNum height)] /\
      width = w * 2 /\ height = h * 2 /\
      (forall k ok',
          In (Called (AgentUploadBlob k) ok') (trace (snd (post E md5 (fresh fs)))) ->
          k = transformed) /\
      (forall input tw th kern ok',
          In (Called (SharpResize input tw th kern) ok') (trace (snd (post E md5 (fresh fs)))) ->
          input = screenshot /\ tw = width /\ th = height /\ kern = nearest) /\
      (sharp_resize_exact E -> env_sharp_metadata E transformed = Ok (width, height)).
Proof.
  run_of (post E md5 (fresh fs)) r w1 H; intros Hin; in_trace Hin;
    injection Hin as <- <-; cbn [fst snd trace].
  all: do 8 eexists.
  all: do 4 (split; [first [eassumption | reflexivity]|]).
  all: do 7 (split; [reflexivity|]).
  all: do 4 eexists.
  all: split; [find_in | split; [eassumption | split; [find_in | split; [eassumption |]]]].
  all: do 4 (split; [reflexivity|]).
  all: split; [intros k ok' Hk; in_trace Hk; injection Hk as <- _; reflexivity |].
  all: split; [intros input tw th kern ok' Hk; in_trace Hk;
               injection Hk as <- <- <- <- _; repeat split |].
  all: intros Hsharp; eapply Hsharp; eassumption.
Qed.

Lemma composed_post_witness :
  exists doc,
    In (Called (AgentPost doc) true) (trace (snd Scenario.foo_skin_run)) /\
    field "text" doc = str "Foo Skin via the Winamp Skin Museum".
Proof.
  destruct foo_skin_post as (doc & _ & _ & Hin & _).
  exists doc. split; [exact Hin|].
  destruct (composed_post _ _ _ _ _ Hin)
    as (skin & name & shot & w & h & facet & feature & image & _ & Hname & _ & _ & Htext & _).
  rewrite Htext. vm_compute in Hname. injection Hname as <-. reflexivity.
Defined.

(** ** The pipeline *)

(** C3: when no md5 is given and the store has no skin to post, the run
    succeeds after exactly two calls, the pick and a console message: nothing
    is transformed, uploaded, submitted, recorded or sent to the chat. *)
Theorem nothing_to_post E discordClient fs :
  env_getSkinToPostToBluesky E = Ok None ->
  postToBluesky E discordClient None (fresh fs) =
    (Ok tt,
     {| trace := [ Called GetSkinToPostToBluesky true;
                   Called (ConsoleError (lit "No skins to post to Bluesky")) true ];
        files := fs |}).
Proof.
  intros Hpick. unfold postToBluesky, bind, perform, perform_checked, ret, fresh.
  cbn [trace files app]. rewrite Hpick. reflexivity.
Qed.

Lemma nothing_to_post_witness :
  fst (postToBluesky Scenario.empty_museum (Scenario.discord (Ok tt)) None (fresh [])) = Ok tt /\
  stages (trace (snd (postToBluesky Scenario.empty_museum (Scenario.discord (Ok tt))
                        None (fresh [])))) = [].
Proof.
  rewrite (nothing_to_post Scenario.empty_museum (Scenario.discord (Ok tt)) [] eq_refl).
  split; reflexivity.
Defined.

(** C4: when the upload was made and the platform answered it with an
    envelope whose success flag is false, the run fails with the error
    "Failed to upload image", the upload is its last call, and no composing,
    submitting, recording or notifying call is made. And
    [uploadImageFromFilePath] returns a blob reference only when the envelope's
    flag is set: the blob of that envelope. *)
Theorem upload_failure_halts E discordClient md5 fs data resp :
  let run := postToBluesky E discordClient md5 (fresh fs) in
  In (Called (AgentUploadBlob data) false) (trace (snd run)) ->
  env_agent_uploadBlob E data = Ok resp ->
  success resp = false ->
  fst run = Throw (JsError (lit "Failed to upload image")) /\
  (exists before, trace (snd run) = before ++ [Called (AgentUploadBlob data) false]) /\
  existsb (fun e => follows_upload (ev_call e)) (trace (snd run)) = false /\
  (forall filePath w blob,
      fst (uploadImageFromFilePath E filePath w) = Ok blob ->
      exists bytes reply,
        lookup_file filePath (files w) = Some bytes /\
        env_agent_uploadBlob E bytes = Ok reply /\
        success reply = true /\ blob = data_blob reply).
Proof.
  cbv zeta. intros Hin Hresp Hflag. rewrite <- and_assoc, <- and_assoc. split.
  - revert Hin.
    run_of (postToBluesky E discordClient md5 (fresh fs)) r w1 H;
      intros Hin; in_trace Hin; injection Hin as <-;
      cbn [fst snd trace]; try congruence.
    all: repeat split; try reflexivity.
    all: ends_with_last.
  - intros filePath w blob.
    unfold uploadImageFromFilePath, bind, readFileSync, perform_checked, throw, ret.
    destruct (lookup_file filePath (files w)) as [bytes|]; [|discriminate].
    destruct (env_agent_uploadBlob E bytes) as [reply|e] eqn:Hup; [|discriminate].
    destruct (success reply) eqn:Hs; cbn; [|discriminate].
    intros [= <-]. exists bytes, reply. auto.
Qed.

Lemma upload_failure_halts_witness :
  fst Scenario.upload_refused_run = Throw (JsError (lit "Failed to upload image")) /\
  existsb (fun e => follows_upload (ev_call e)) (trace (snd Scenario.upload_refused_run)) = false.
Proof.
  assert (Hin : In (Called (AgentUploadBlob
                              [4; 4; 10; 10; 20; 20; 10; 10; 20; 20; 30; 30; 40; 40; 30; 30; 40; 40])
                           false)
                   (trace (snd Scenario.upload_refused_run))).
  { vm_compute. find_in. }
  destruct (upload_failure_halts
              (Scenario.museum (lit "Foo Skin") Scenario.upload_refused Scenario.submitted)
              (Scenario.discord (Ok tt)) None [] _
              {| success := false; data_blob := [] |} Hin eq_refl eq_refl)
    as (Hfail & _ & Hnone & _).
  split; [exact Hfail | exact Hnone].
Defined.







(* ===================================================================== *)
(** * The global mouse listener *)
(* ===================================================================== *)

Module HooksFacts.
Import Hooks.

Lemma existsb_filter {A} (f : A -> bool) l :
  existsb f l = negb (Nat.eqb (List.length (filter f l)) 0).
Proof.
  induction l as [|x l IH]; [reflexivity|].
  cbn [existsb filter]. destruct (f x); [reflexivity | exact IH].
Qed.

Lemma filter_out {A} (f : A -> bool) l :
  filter f (filter (fun x => negb (f x)) l) = [].
Proof.
  induction l as [|x l IH]; [reflexivity|].
  cbn [filter]. destruct (f x) eqn:Hx; cbn [negb filter]; [exact IH|].
  rewrite Hx. exact IH.
Qed.

Lemma add_consistent s : consistent s -> consistent (addGlobalMouseListener s).
Proof.
  intros [Hc Ha Hp]. unfold addGlobalMouseListener.
  destruct (Z.eqb_spec (listenerRefCount s) 0) as [H0|H0].
  - revert Ha Hp. unfold attached, attach_calls, detach_calls, holds, addEventListener.
    cbn [listenerRefCount document_listeners document_calls].
    rewrite H0. cbn [Z.ltb Z.compare Z.add]. intros Ha Hp.
    rewrite existsb_filter, Ha. cbn [Nat.eqb negb].
    split; unfold attached, attach_calls, detach_calls, holds;
      cbn [listenerRefCount document_listeners document_calls];
      rewrite ?filter_app, ?length_app, ?Ha, ?Hp; cbn; lia.
  - revert Ha Hp. unfold attached, attach_calls, detach_calls, holds.
    cbn [listenerRefCount document_listeners document_calls].
    destruct (Z.ltb_spec 0 (listenerRefCount s)); [|lia].
    destruct (Z.ltb_spec 0 (listenerRefCount s + 1)); [|lia].
    intros Ha Hp. split; cbn [listenerRefCount document_listeners document_calls];
      unfold attached, attach_calls, detach_calls, holds;
      cbn [listenerRefCount document_listeners document_calls];
      try destruct (Z.ltb_spec 0 (listenerRefCount s + 1)); lia.
Qed.

Lemma remove_consistent s :
  consistent s -> 0 < listenerRefCount s -> consistent (removeGlobalMouseListener s).
Proof.
  intros [Hc Ha Hp] Hpos. unfold removeGlobalMouseListener.
  cbn [listenerRefCount document_listeners document_calls].
  revert Ha Hp. unfold attached, attach_calls, detach_calls, holds.
  destruct (Z.ltb_spec 0 (listenerRefCount s)); [|lia]. intros Ha Hp.
  destruct (Z.eqb_spec (listenerRefCount s - 1) 0) as [H0|H0].
  - split; unfold attached, attach_calls, detach_calls, holds, removeEventListener;
      cbn [listenerRefCount document_listeners document_calls]; rewrite ?H0.
    + lia.
    + rewrite filter_out. reflexivity.
    + rewrite !filter_app, !length_app, Hp. cbn. lia.
  - split; unfold attached, attach_calls, detach_calls, holds;
      cbn [listenerRefCount document_listeners document_calls];
      try destruct (Z.ltb_spec 0 (listenerRefCount s - 1)); lia.
Qed.

Lemma add_count s : listenerRefCount (addGlobalMouseListener s) = listenerRefCount s + 1.
Proof. unfold addGlobalMouseListener. destruct (listenerRefCount s =? 0); reflexivity. Qed.

Lemma remove_count s :
  listenerRefCount (removeGlobalMouseListener s) = listenerRefCount s - 1.
Proof.
  unfold removeGlobalMouseListener. cbn [listenerRefCount].
  destruct (listenerRefCount s - 1 =? 0); reflexivity.
Qed.

Lemma run_consistent ops : forall s a r,
  consistent s ->
  listenerRefCount s = Z.of_nat a - Z.of_nat r ->
  balanced_from a r ops = true ->
  consistent (run ops s) /\
  listenerRefCount (run ops s) =
    Z.of_nat (a + additions ops) - Z.of_nat (r + removals ops).
Proof.
  induction ops as [|[|] ops IH]; intros s a r Hs Hcount Hbal.
  - cbn. split; [exact Hs|]. rewrite !Nat.add_0_r. exact Hcount.
  - cbn [balanced_from] in Hbal.
    destruct (IH (addGlobalMouseListener s) (S a) r) as [Hs' Hc'];
      [apply add_consistent; exact Hs | rewrite add_count; lia | exact Hbal |].
    split; [exact Hs'|].
    change (run (Add :: ops) s) with (run ops (addGlobalMouseListener s)).
    rewrite Hc'. unfold additions, removals. cbn [filter List.length]. lia.
  - cbn [balanced_from] in Hbal. apply andb_prop in Hbal as [Hle Hbal].
    apply Nat.leb_le in Hle.
    destruct (IH (removeGlobalMouseListener s) a (S r)) as [Hs' Hc'];
      [apply remove_consistent; [exact Hs | lia] | rewrite remove_count; lia | exact Hbal |].
    split; [exact Hs'|].
    change (run (Remove :: ops) s) with (run ops (removeGlobalMouseListener s)).
    rewrite Hc'. unfold additions, removals. cbn [filter List.length]. lia.
Qed.

(** [balanced] says what it should: in every prefix of the sequence the
    removals are at most the additions. *)
Lemma balanced_from_prefixes ops : forall a r,
  (r <= a)%nat ->
  (balanced_from a r ops = true <->
   forall n, (r + removals (firstn n ops) <= a + additions (firstn n ops))%nat).
Proof.
  unfold additions, removals.
  induction ops as [|[|] ops IH]; intros a r Hle; cbn [balanced_from].
  - split; [|reflexivity]. intros _ n. rewrite firstn_nil. cbn. lia.
  - rewrite (IH (S a) r) by lia. split; intros Hall n.
    + destruct n as [|n]; [cbn; lia|]. specialize (Hall n).
      cbn [firstn filter List.length]. lia.
    + specialize (Hall (S n)). cbn [firstn filter List.length] in Hall. lia.
  - split.
    + intros Hb. apply andb_prop in Hb as [Hra Hb]. apply Nat.leb_le in Hra.
      pose proof (proj1 (IH a (S r) Hra) Hb) as Hall. intros n.
      destruct n as [|n]; [cbn; lia|]. specialize (Hall n).
      cbn [firstn filter List.length]. lia.
    + intros Hall. apply andb_true_intro. split.
      * apply Nat.leb_le. specialize (Hall 1%nat). cbn in Hall. lia.
      * assert (Hra : (S r <= a)%nat) by (specialize (Hall 1%nat); cbn in Hall; lia).
        apply (proj2 (IH a (S r) Hra)). intros n. specialize (Hall (S n)).
        cbn [firstn filter List.length] in Hall. lia.
Qed.

Lemma balanced_prefixes ops :
  balanced ops = true <->
  forall n, (removals (firstn n ops) <= additions (firstn n ops))%nat.
Proof. unfold balanced. now rewrite (balanced_from_prefixes ops 0 0). Qed.

(** C10: starting with the counter at zero and the handler not registered,
    after any sequence of [addGlobalMouseListener] and
    [removeGlobalMouseListener] calls in which removals never exceed prior
    additions, the counter is the number of additions minus the number of
    removals; the handler is registered on the document exactly when the
    counter is positive; it is then in the listener list once; and the
    [addEventListener] calls made are the [removeEventListener] calls made,
    plus one while the counter is positive. *)
Theorem refcount_tracks_listener (others : list registration) (ops : list Op) :
  registered (initial others) = false ->
  balanced ops = true ->
  let s := run ops (initial others) in
  listenerRefCount s = Z.of_nat (additions ops) - Z.of_nat (removals ops) /\
  (registered s = true <-> 0 < listenerRefCount s) /\
  attached s = holds (listenerRefCount s) /\
  attach_calls s = (detach_calls s + holds (listenerRefCount s))%nat.
Proof.
  intros Hfree Hbal s.
  assert (Hinit : consistent (initial others)).
  { split; cbn; [lia | | reflexivity].
    unfold registered in Hfree. rewrite existsb_filter in Hfree.
    unfold attached, holds. cbn [document_listeners initial Z.ltb Z.compare].
    cbn [document_listeners initial] in Hfree.
    destruct (List.length (filter (same_registration "mousemove" globalMouseMoveHandler) others));
      [reflexivity | discriminate]. }
  destruct (run_consistent ops (initial others) 0 0 Hinit eq_refl Hbal) as [[Hc Ha Hp] Hcount].
  fold s in Hc, Ha, Hp, Hcount.
  repeat split; trivial.
  - intros Hreg. unfold registered in Hreg. rewrite existsb_filter in Hreg.
    fold (attached s) in Hreg. rewrite Ha in Hreg. unfold holds in Hreg.
    destruct (Z.ltb_spec 0 (listenerRefCount s)); [assumption | discriminate].
  - intros Hpos. unfold registered. rewrite existsb_filter. fold (attached s). rewrite Ha.
    unfold holds. destruct (Z.ltb_spec 0 (listenerRefCount s)); [reflexivity | lia].
Qed.

Lemma refcount_tracks_listener_witness :
  let ops := [Add; Add; Remove; Add; Remove; Remove; Add] in
  let s := run ops (initial [("click"%string, otherListener 7)]) in
  listenerRefCount s = 1 /\ attached s = 1%nat.
Proof.
  intros ops s.
  destruct (refcount_tracks_listener [("click"%string, otherListener 7)] ops
              eq_refl eq_refl) as (Hcount & _ & Ha & _).
  split; [exact Hcount | exact Ha].
Defined.

End HooksFacts.

(* ===================================================================== *)
(** * More properties of the publishing task *)
(* ===================================================================== *)

Ltac step_goal :=
  match goal with
  | |- context [withBufferAsTempFile ?E ?i ?n _ ?w] =>
      rewrite (upload_step E i n w); unfold upload_outcome
  | |- context [match ?x with _ => _ end] =>
      lazymatch x with
      | context [match _ with _ => _ end] => fail
      | _ => destruct x eqn:?
      end
  end.

Lemma post_after_calls E md5 before fs :
  post E md5 {| trace := before; files := fs |} = after_calls before (post E md5 (fresh fs)).
Proof.
  unfold after_calls.
  cbv beta delta [post buildPost bind perform perform_checked ret throw fresh].
  cbn [trace files app].
  repeat (step_goal; cbn [trace files app fst snd]).
  all: rewrite <- ?app_assoc; reflexivity.
Qed.

(** X1: when no md5 is given and the store picks [key], the run is the run
    for the explicit md5 [key] made after the one call that picks: same
    result, same files, the same calls after the pick. *)
Theorem pick_then_publish E discordClient key fs :
  env_getSkinToPostToBluesky E = Ok (Some key) ->
  postToBluesky E discordClient None (fresh fs) =
    after_calls [Called GetSkinToPostToBluesky true]
      (postToBluesky E discordClient (Some key) (fresh fs)).
Proof.
  intros Hpick. unfold after_calls.
  cbv beta delta [postToBluesky bind perform perform_checked ret throw fresh].
  cbn [trace files app]. rewrite Hpick. cbn [trace files app].
  rewrite (post_after_calls E key [Called GetSkinToPostToBluesky true] fs).
  unfold after_calls, fresh.
  destruct (post E key {| trace := []; files := fs |}) as [[url|e] w1]; cbn [fst snd trace files];
    [|reflexivity].
  repeat (step_goal; cbn [trace files app fst snd]).
  all: rewrite <- ?app_assoc; reflexivity.
Qed.

Lemma pick_then_publish_witness :
  fst (postToBluesky (Scenario.museum (lit "Foo Skin") Scenario.uploaded Scenario.submitted)
         (Scenario.discord (Ok tt)) None (fresh []))
  = fst (postToBluesky (Scenario.museum (lit "Foo Skin") Scenario.uploaded Scenario.submitted)
           (Scenario.discord (Ok tt)) (Some Scenario.md5) (fresh [])).
Proof.
  rewrite (pick_then_publish
             (Scenario.museum (lit "Foo Skin") Scenario.uploaded Scenario.submitted)
             (Scenario.discord (Ok tt)) Scenario.md5 [] eq_refl).
  reflexivity.
Defined.

(** X2: with an explicit md5 the store is never asked for a skin to post;
    the run starts by loading that md5, and every skin it loads or marks as
    posted is that md5. *)
Theorem explicit_md5_never_picks E discordClient key fs :
  let run := postToBluesky E discordClient (Some key) (fresh fs) in
  existsb (fun e => match ev_call e with GetSkinToPostToBluesky => true | _ => false end)
          (trace (snd run)) = false /\
  hd_error (trace (snd run)) =
    Some (Called (FromMd5Assert key) (is_ok (env_fromMd5Assert E key))) /\
  (forall other ok, In (Called (FromMd5Assert other) ok) (trace (snd run)) -> other = key) /\
  (forall other postId postUrl ok,
      In (Called (MarkAsPostedToBlueSky other postId postUrl) ok) (trace (snd run)) ->
      other = key).
Proof.
  cbv zeta.
  run_of (postToBluesky E discordClient (Some key) (fresh fs)) r w1 H;
    cbn [fst snd trace];
    repeat match goal with Hk : Some _ = Some _ |- _ => injection Hk as <- end;
    (split; [reflexivity | split; [|split]]).
  all: try reflexivity.
  all: intros; match goal with Hin : In _ _ |- _ => in_trace Hin; congruence end.
Qed.

(** X3: when [post] returns a url, it is the uri of the platform's answer to
    the post submitted, the skin has been marked as posted with that answer's
    cid and that url, and marking was the last call. *)
Theorem post_returns_recorded_uri E md5 fs url :
  fst (post E md5 (fresh fs)) = Ok url ->
  exists doc resp,
    env_agent_post E doc = Ok resp /\
    url = uri resp /\
    In (Called (AgentPost doc) true) (trace (snd (post E md5 (fresh fs)))) /\
    marked_posted (trace (snd (post E md5 (fresh fs)))) md5 (cid resp) url /\
    exists before,
      trace (snd (post E md5 (fresh fs))) =
        before ++ [Called (MarkAsPostedToBlueSky md5 (cid resp) url) true].
Proof.
  unfold marked_posted.
  run_of (post E md5 (fresh fs)) r w1 H; cbn [fst snd trace]; intros Hok;
    try discriminate Hok; injection Hok as <-.
  do 2 eexists. split; [eassumption|]. split; [reflexivity|].
  split; [find_in | split; [find_in | ends_with_last]].
Qed.

Lemma post_returns_recorded_uri_witness :
  exists doc resp,
    env_agent_post (Scenario.museum (lit "Foo Skin") Scenario.uploaded Scenario.submitted) doc
      = Ok resp /\
    Scenario.postUri = uri resp.
Proof.
  assert (Hok : fst (post (Scenario.museum (lit "Foo Skin") Scenario.uploaded Scenario.submitted)
                          Scenario.md5 (fresh [])) = Ok Scenario.postUri)
    by (vm_compute; reflexivity).
  destruct (post_returns_recorded_uri _ _ _ _ Hok) as (doc & resp & Hpost & Huri & _).
  exists doc, resp. split; [exact Hpost | exact Huri].
Defined.

(** X4: a run that succeeds either had nothing to post, or has submitted a
    post, marked the skin picked or given as posted with the cid and uri the
    platform answered, sent that same uri to the channel fetched for
    [TWEET_BOT_CHANNEL_ID], and ended by logging "Posted to discord". *)
Theorem success_notifies_recorded_uri E discordClient md5 fs :
  let run := postToBluesky E discordClient md5 (fresh fs) in
  fst run = Ok tt ->
  (md5 = None /\ env_getSkinToPostToBluesky E = Ok None) \/
  exists key doc resp ch,
    (md5 = Some key \/ md5 = None /\ env_getSkinToPostToBluesky E = Ok (Some key)) /\
    env_agent_post E doc = Ok resp /\
    channels_fetch discordClient (TWEET_BOT_CHANNEL_ID E) = Ok (Some ch) /\
    In (Called (AgentPost doc) true) (trace (snd run)) /\
    In (Called (MarkAsPostedToBlueSky key (cid resp) (uri resp)) true) (trace (snd run)) /\
    In (Called (ChannelSend (channel_id ch) (uri resp)) true) (trace (snd run)) /\
    exists before,
      trace (snd run) = before ++ [Called (ConsoleLog (lit "Posted to discord")) true].
Proof.
  cbv zeta.
  run_of (postToBluesky E discordClient md5 (fresh fs)) r w1 H; cbn [fst snd trace];
    intros Hok; try discriminate Hok.
  all: first
         [ left; split; reflexivity
         | right; do 4 eexists;
           (split; [first [left; reflexivity | right; split; reflexivity] |]);
           (split; [eassumption | split; [first [eassumption | reflexivity] |]]);
           (split; [find_in | split; [find_in | split; [find_in | ends_with_last]]]) ].
Qed.

Lemma success_notifies_recorded_uri_witness :
  exists ch,
    In (Called (ChannelSend ch Scenario.postUri) true)
       (trace (snd (postToBluesky
                      (Scenario.museum (lit "Foo Skin") Scenario.uploaded Scenario.submitted)
                      (Scenario.discord (Ok tt)) None (fresh [])))).
Proof.
  assert (Hok : fst (postToBluesky
                       (Scenario.museum (lit "Foo Skin") Scenario.uploaded Scenario.submitted)
                       (Scenario.discord (Ok tt)) None (fresh [])) = Ok tt)
    by (vm_compute; reflexivity).
  destruct (success_notifies_recorded_uri _ _ _ _ Hok)
    as [[_ Hnone] | (key & doc & resp & ch & _ & Hpost & _ & _ & _ & Hsend & _)].
  { discriminate Hnone. }
  vm_compute in Hpost. injection Hpost as <-.
  exists (channel_id ch). exact Hsend.
Defined.

(** X5: when the platform rejects the post, the run fails with the
    platform's error right there: the image has been uploaded, but nothing is
    recorded in the store and nothing is sent to the chat. *)
Theorem submission_failure_not_recorded E discordClient md5 fs doc :
  let run := postToBluesky E discordClient md5 (fresh fs) in
  In (Called (AgentPost doc) false) (trace (snd run)) ->
  exists e,
    env_agent_post E doc = Throw e /\
    fst run = Throw e /\
    (exists image, In (Called (AgentUploadBlob image) true) (trace (snd run))) /\
    (exists before, trace (snd run) = before ++ [Called (AgentPost doc) false]) /\
    existsb (fun ev => records_or_notifies (ev_call ev)) (trace (snd run)) = false.
Proof.
  cbv zeta.
  run_of (postToBluesky E discordClient md5 (fresh fs)) r w1 H;
    intros Hin; in_trace Hin; injection Hin as <-; cbn [fst snd trace].
  all: eexists; split; [eassumption | split; [reflexivity |]].
  all: split; [eexists; find_in | split; [ends_with_last | reflexivity]].
Qed.

Lemma submission_failure_not_recorded_witness :
  fst Scenario.submission_refused_run = Throw (Rejected (lit "Missing Access")) /\
  existsb (fun ev => records_or_notifies (ev_call ev))
          (trace (snd Scenario.submission_refused_run)) = false.
Proof.
  assert (Hin : exists doc, In (Called (AgentPost doc) false)
                              (trace (snd Scenario.submission_refused_run))).
  { eexists. vm_compute. find_in. }
  destruct Hin as [doc Hin].
  destruct (submission_failure_not_recorded
              (Scenario.museum (lit "Foo Skin") Scenario.uploaded Scenario.discord_down_error)
              (Scenario.discord (Ok tt)) None [] doc Hin)
    as (e & Hpost & Hfail & _ & _ & Hnone).
  cbn in Hpost. injection Hpost as <-.
  split; [exact Hfail | exact Hnone].
Defined.

(** X6: when the store fails to mark the skin as posted, the post has
    already been accepted by the platform; the run fails with the store's
    error and the Discord client is never called. *)
Theorem recording_failure_not_notified E discordClient md5 fs key postId postUrl :
  let run := postToBluesky E discordClient md5 (fresh fs) in
  In (Called (MarkAsPostedToBlueSky key postId postUrl) false) (trace (snd run)) ->
  exists e doc resp,
    env_agent_post E doc = Ok resp /\ postId = cid resp /\ postUrl = uri resp /\
    In (Called (AgentPost doc) true) (trace (snd run)) /\
    env_markAsPostedToBlueSky E key postId postUrl = Throw e /\
    fst run = Throw e /\
    (exists before,
        trace (snd run) = before ++ [Called (MarkAsPostedToBlueSky key postId postUrl) false]) /\
    existsb (fun ev => contacts_discord (ev_call ev)) (trace (snd run)) = false.
Proof.
  cbv zeta.
  run_of (postToBluesky E discordClient md5 (fresh fs)) r w1 H;
    intros Hin; in_trace Hin; injection Hin as <- <- <-; cbn [fst snd trace].
  all: do 3 eexists; split; [eassumption | split; [reflexivity | split; [reflexivity |]]].
  all: split; [find_in | split; [eassumption | split; [reflexivity |]]].
  all: split; [ends_with_last | reflexivity].
Qed.

(** X7: when the Discord client resolves the channel to [null], the run
    fails with a runtime error right after the fetch and sends nothing; the
    skin given or picked is marked as posted all the same, with the cid and
    uri the platform returned for the post, and no other mark is made. *)
Theorem null_channel_fails_after_publish E discordClient md5 fs :
  let run := postToBluesky E discordClient md5 (fresh fs) in
  channels_fetch discordClient (TWEET_BOT_CHANNEL_ID E) = Ok None ->
  In (Called (ChannelsFetch (TWEET_BOT_CHANNEL_ID E)) true) (trace (snd run)) ->
  (exists message, fst run = Throw (JsError message)) /\
  (exists key postId postUrl, marked_posted (trace (snd run)) key postId postUrl) /\
  (exists before,
      trace (snd run) = before ++ [Called (ChannelsFetch (TWEET_BOT_CHANNEL_ID E)) true]) /\
  existsb (fun ev => match ev_call ev with ChannelSend _ _ => true | _ => false end)
          (trace (snd run)) = false /\
  (exists key doc resp,
      (md5 = Some key \/ md5 = None /\ env_getSkinToPostToBluesky E = Ok (Some key)) /\
      In (Called (AgentPost doc) true) (trace (snd run)) /\
      env_agent_post E doc = Ok resp /\
      marked_posted (trace (snd run)) key (cid resp) (uri resp) /\
      env_markAsPostedToBlueSky E key (cid resp) (uri resp) = Ok tt /\
      (forall other postId postUrl ok,
          In (Called (MarkAsPostedToBlueSky other postId postUrl) ok) (trace (snd run)) ->
          other = key /\ postId = cid resp /\ postUrl = uri resp /\ ok = true) /\
      exists before,
        trace (snd run) =
          before ++ [ Called (MarkAsPostedToBlueSky key (cid resp) (uri resp)) true;
                      Called (ConsoleLog (lit "Going to post to discord")) true;
                      Called (ChannelsFetch (TWEET_BOT_CHANNEL_ID E)) true ]).
Proof.
  cbv zeta. unfold marked_posted. intros Hnull. revert Hnull.
  run_of (postToBluesky E discordClient md5 (fresh fs)) r w1 H;
    intros Hnull Hin; in_trace Hin; try congruence; cbn [fst snd trace].
  all: split; [eexists; reflexivity | split; [do 3 eexists; find_in |]].
  all: split; [ends_with_last | split; [reflexivity |]].
  all: do 3 eexists.
  all: split; [first [left; reflexivity | right; split; reflexivity] |].
  all: split; [find_in | split; [eassumption | split; [find_in |]]].
  all: split; [match goal with
               | Hm : env_markAsPostedToBlueSky _ _ _ _ = Ok ?u |- _ =>
                   destruct u; exact Hm
               end |].
  all: split; [intros other postId postUrl ok Hk; in_trace Hk;
               injection Hk as <- <- <- <-; repeat split |].
  all: match goal with
       | |- exists before, ?l = _ =>
           exists (removelast (removelast (removelast l))); reflexivity
       end.
Qed.

(** X8: a login is made with the configured user name and password, and
    only after the skin of the md5 was loaded, its screenshot read and
    measured as [w] by [h], that screenshot resized to [w * 2] by [h * 2]
    with the nearest kernel, and the skin's file name and screenshot file
    name fetched, all with success: a run with a login starts with exactly
    these calls, in this order, then the login. *)
Theorem login_after_transform E md5 fs identifier password ok :
  In (Called (AgentLogin identifier password) ok) (trace (snd (post E md5 (fresh fs)))) ->
  identifier = BLUESKY_USERNAME E /\ password = BLUESKY_PASSWORD E /\
  exists skin screenshot w h image name fileName rest,
    env_sharp_resize E screenshot (w * 2) (h * 2) nearest = Ok image /\
    env_getFileName E skin = Ok name /\
    env_getScreenshotFileName E skin = Ok fileName /\
    trace (snd (post E md5 (fresh fs))) =
      [ Called (FromMd5Assert md5) true;
        Called (GetScreenshotBuffer md5) true;
        Called (SharpMetadata screenshot) true;
        Called (SharpResize screenshot (w * 2) (h * 2) nearest) true;
        Called (GetFileName skin) true;
        Called (GetScreenshotFileName skin) true;
        Called (AgentLogin identifier password) ok ] ++ rest /\
    env_fromMd5Assert E md5 = Ok skin /\
    env_getScreenshotBuffer E md5 = Ok screenshot /\
    env_sharp_metadata E screenshot = Ok (w, h) /\
    ok = is_ok (env_agent_login E (BLUESKY_USERNAME E) (BLUESKY_PASSWORD E)) /\
    (forall identifier' password' ok',
        In (Called (AgentLogin identifier' password') ok') rest -> False).
Proof.
  run_of (post E md5 (fresh fs)) r w1 H; intros Hin; in_trace Hin;
    injection Hin as <- <- <-; cbn [fst snd trace].
  all: split; [reflexivity | split; [reflexivity |]].
  all: do 8 eexists.
  all: split; [eassumption | split; [eassumption | split; [eassumption |]]].
  all: split; [reflexivity |].
  all: do 3 (split; [first [eassumption | reflexivity] |]).
  all: split; [reflexivity |].
  all: intros identifier' password' ok' Hk; in_trace Hk.
Qed.

Lemma recording_failure_not_notified_witness :
  fst Outage.store_down_run = Throw (Rejected (lit "SQLITE_BUSY")) /\
  existsb (fun ev => contacts_discord (ev_call ev)) (trace (snd Outage.store_down_run)) = false.
Proof.
  assert (Hin : In (Called (MarkAsPostedToBlueSky Scenario.md5 (lit "p1") Scenario.postUri) false)
                   (trace (snd Outage.store_down_run))).
  { vm_compute. find_in. }
  destruct (recording_failure_not_notified Outage.store_down (Scenario.discord (Ok tt)) None []
              _ _ _ Hin)
    as (e & doc & resp & _ & _ & _ & _ & Hmark & Hfail & _ & Hnone).
  cbn in Hmark. injection Hmark as <-.
  split; [exact Hfail | exact Hnone].
Defined.

Lemma null_channel_fails_after_publish_witness :
  (exists message, fst Outage.no_channel_run = Throw (JsError message)) /\
  (exists key postId postUrl,
      marked_posted (trace (snd Outage.no_channel_run)) key postId postUrl).
Proof.
  assert (Hin : In (Called (ChannelsFetch (lit "1234")) true)
                   (trace (snd Outage.no_channel_run))).
  { vm_compute. find_in. }
  destruct (null_channel_fails_after_publish
              (Scenario.museum (lit "Foo Skin") Scenario.uploaded Scenario.submitted)
              Outage.no_channel None [] eq_refl Hin)
    as (Hfail & Hmarked & _).
  split; [exact Hfail | exact Hmarked].
Defined.

Lemma login_after_transform_witness :
  In (Called (AgentLogin (lit "museum.bsky.social") (lit "secret")) true)
     (trace (snd Scenario.foo_skin_run)) /\
  exists screenshot w h image,
    Scenario.resize screenshot (w * 2) (h * 2) nearest = Ok image.
Proof.
  assert (Hin : In (Called (AgentLogin (lit "museum.bsky.social") (lit "secret")) true)
                   (trace (snd Scenario.foo_skin_run))).
  { vm_compute. find_in. }
  split; [exact Hin|].
  destruct (login_after_transform
              (Scenario.museum (lit "Foo Skin") Scenario.uploaded Scenario.submitted)
              Scenario.md5 [] _ _ _ Hin)
    as (_ & _ & skin & shot & w & h & image & name & fileName & rest & Hresize & _).
  exists shot, w, h, image. exact Hresize.
Defined.

(** ** The facet of a name in ASCII *)

(** X9: for a skin whose file name is non-empty and all ASCII, the facet of
    the post submitted has a byte range that is non-empty, lies within the
    UTF-8 form of the text and spans exactly the name's bytes. *)
Theorem ascii_facet_spans_name E md5 fs doc ok skin name :
  In (Called (AgentPost doc) ok) (trace (snd (post E md5 (fresh fs)))) ->
  env_fromMd5Assert E md5 = Ok skin ->
  env_getFileName E skin = Ok name ->
  is_ascii name -> name <> [] ->
  exists text facet byteStart byteEnd,
    field "text" doc = VStr text /\
    field "facets" doc = VArr [facet] /\
    field "index" facet = object [Field "byteStart" (VNum byteStart);
                                  Field "byteEnd" (VNum byteEnd)] /\
    0 <= byteStart < byteEnd /\ byteEnd <= byteLength text /\
    byte_slice byteStart byteEnd (utf8 text) = utf8 name.
Proof.
  intros Hin Hskin Hname Hascii Hne.
  destruct (submitted_post _ _ _ _ _ Hin)
    as (skin' & shot & w & h & image & name' & resp & Hs & _ & _ & _ & Hn & _ & _ & ->).
  assert (skin' = skin) by congruence; subst skin'.
  assert (name' = name) by congruence; subst name'.
  destruct (facet_range_ascii name Hascii Hne) as (Hrange & Hend & Hslice).
  do 4 eexists. split; [reflexivity | split; [reflexivity | split; [reflexivity |]]].
  split; [exact Hrange | split; [exact Hend | exact Hslice]].
Qed.

Lemma ascii_facet_spans_name_witness :
  exists doc text,
    field "text" doc = VStr text /\
    byte_slice 0 8 (utf8 text) = utf8 (lit "Foo Skin").
Proof.
  destruct foo_skin_post as (doc & facet0 & image & Hin & _ & Hfacets & Hindex & _).
  assert (Hascii : is_ascii (lit "Foo Skin")) by (repeat constructor; lia).
  assert (Hne : lit "Foo Skin" <> []) by discriminate.
  destruct (ascii_facet_spans_name
              (Scenario.museum (lit "Foo Skin") Scenario.uploaded Scenario.submitted)
              Scenario.md5 [] doc true Scenario.md5 (lit "Foo Skin")
              Hin eq_refl eq_refl Hascii Hne)
    as (text & facet & byteStart & byteEnd & Htext & Hf & Hi & _ & _ & Hslice).
  exists doc, text. split; [exact Htext|].
  rewrite Hfacets in Hf. injection Hf as <-.
  rewrite Hindex in Hi. injection Hi as <- <-.
  exact Hslice.
Defined.

(** ** Reading the file to upload *)

(** X10: [uploadImageFromFilePath] on a path with no file throws without
    calling the platform or changing anything; on a path with a file it
    makes exactly one upload call, of that file's bytes, leaves the files as
    they are, and the call counts as successful exactly when a blob
    reference is returned. *)
Theorem upload_reads_the_file E filePath w :
  (lookup_file filePath (files w) = None ->
   (exists message, fst (uploadImageFromFilePath E filePath w) = Throw (JsError message)) /\
   snd (uploadImageFromFilePath E filePath w) = w) /\
  (forall bytes,
      lookup_file filePath (files w) = Some bytes ->
      exists ok,
        trace (snd (uploadImageFromFilePath E filePath w)) =
          trace w ++ [Called (AgentUploadBlob bytes) ok] /\
        files (snd (uploadImageFromFilePath E filePath w)) = files w /\
        (ok = true <->
         exists blob, fst (uploadImageFromFilePath E filePath w) = Ok blob)).
Proof.
  unfold uploadImageFromFilePath, bind, readFileSync, perform_checked, throw, ret. split.
  - intros ->. split; [eexists|]; reflexivity.
  - intros bytes ->. destruct (env_agent_uploadBlob E bytes) as [reply|e]; cbn [fst snd trace files].
    + destruct (success reply); cbn [fst snd trace files negb]; eexists;
        (split; [reflexivity | split; [reflexivity |]]).
      * split; [intros _; eexists; reflexivity | reflexivity].
      * split; [discriminate | intros [blob Hb]; discriminate Hb].
    + eexists. split; [reflexivity | split; [reflexivity |]].
      split; [discriminate | intros [blob Hb]; discriminate Hb].
Qed.

(* ===================================================================== *)
(** * More properties of the hooks *)
(* ===================================================================== *)

Module HooksMoreFacts.
Import Hooks HooksMore HooksFacts.

Ltac unfold_state :=
  unfold attached, attach_calls, detach_calls, holds, addEventListener, removeEventListener;
  cbn [listenerRefCount document_listeners document_calls].

Lemma add_linked s : linked s -> linked (addGlobalMouseListener s).
Proof.
  intros [Ha Hp]. unfold addGlobalMouseListener.
  destruct (Z.eqb_spec (listenerRefCount s) 0) as [H0|H0].
  - revert Ha Hp. unfold_state. rewrite H0. cbn [Z.ltb Z.compare Z.add]. intros Ha Hp.
    rewrite existsb_filter, Ha. cbn [Nat.eqb negb].
    split; unfold_state; rewrite ?filter_app, ?length_app, ?Ha, ?Hp; cbn; lia.
  - revert Ha Hp. unfold_state. intros Ha Hp.
    split; unfold_state; rewrite ?Ha, ?Hp;
      destruct (Z.ltb_spec 0 (listenerRefCount s));
      destruct (Z.ltb_spec 0 (listenerRefCount s + 1)); lia.
Qed.

Lemma remove_linked s : linked s -> linked (removeGlobalMouseListener s).
Proof.
  intros [Ha Hp]. unfold removeGlobalMouseListener.
  cbn [listenerRefCount document_listeners document_calls].
  revert Ha Hp. unfold_state. intros Ha Hp.
  destruct (Z.eqb_spec (listenerRefCount s - 1) 0) as [H0|H0].
  - split; unfold_state; rewrite ?H0.
    + rewrite filter_out. reflexivity.
    + rewrite !filter_app, !length_app, Hp.
      destruct (Z.ltb_spec 0 (listenerRefCount s)); cbn; lia.
  - split; unfold_state; rewrite ?Ha, ?Hp;
      destruct (Z.ltb_spec 0 (listenerRefCount s));
      destruct (Z.ltb_spec 0 (listenerRefCount s - 1)); lia.
Qed.

Lemma run_linked ops : forall s,
  linked s ->
  linked (run ops s) /\
  listenerRefCount (run ops s) =
    listenerRefCount s + Z.of_nat (additions ops) - Z.of_nat (removals ops).
Proof.
  induction ops as [|[|] ops IH]; intros s Hs.
  - cbn. split; [exact Hs | lia].
  - destruct (IH (addGlobalMouseListener s) (add_linked s Hs)) as [Hl Hc].
    change (run (Add :: ops) s) with (run ops (addGlobalMouseListener s)).
    split; [exact Hl|]. rewrite Hc, add_count. unfold additions, removals.
    cbn [filter List.length]. lia.
  - destruct (IH (removeGlobalMouseListener s) (remove_linked s Hs)) as [Hl Hc].
    change (run (Remove :: ops) s) with (run ops (removeGlobalMouseListener s)).
    split; [exact Hl|]. rewrite Hc, remove_count. unfold additions, removals.
    cbn [filter List.length]. lia.
Qed.

Lemma initial_linked others :
  registered (initial others) = false -> linked (initial others).
Proof.
  intros Hfree. unfold registered in Hfree. rewrite existsb_filter in Hfree.
  cbn [document_listeners initial] in Hfree.
  split; unfold_state; cbn [initial document_listeners document_calls]; [|reflexivity].
  cbn [initial listenerRefCount Z.ltb Z.compare].
  destruct (List.length (filter (same_registration "mousemove" globalMouseMoveHandler) others));
    [reflexivity | discriminate].
Qed.

Lemma registered_holds s :
  linked s -> (registered s = true <-> 0 < listenerRefCount s).
Proof.
  intros [Ha _]. unfold registered. rewrite existsb_filter. fold (attached s). rewrite Ha.
  unfold holds. destruct (Z.ltb_spec 0 (listenerRefCount s)); cbn; split; intros; try lia;
    try reflexivity; discriminate.
Qed.

(** X11: for every sequence of [addGlobalMouseListener] and
    [removeGlobalMouseListener] calls, also one with unmatched removals, the
    counter is additions minus removals, the handler is registered exactly
    when the additions outnumber the removals, it is then in the listener
    list once, and calls to [addEventListener] and [removeEventListener]
    stay paired. *)
Theorem refcount_any_order (others : list registration) (ops : list Op) :
  registered (initial others) = false ->
  let s := run ops (initial others) in
  listenerRefCount s = Z.of_nat (additions ops) - Z.of_nat (removals ops) /\
  (registered s = true <-> (removals ops < additions ops)%nat) /\
  attached s = holds (listenerRefCount s) /\
  attach_calls s = (detach_calls s + holds (listenerRefCount s))%nat.
Proof.
  intros Hfree s.
  destruct (run_linked ops (initial others) (initial_linked others Hfree)) as [Hl Hc].
  fold s in Hl, Hc. cbn [initial listenerRefCount] in Hc.
  split; [lia|]. split; [|destruct Hl; split; assumption].
  rewrite (registered_holds s Hl). lia.
Qed.

Lemma refcount_any_order_witness :
  let s := run [Remove; Add] (initial []) in
  listenerRefCount s = 0 /\ attached s = 0%nat.
Proof.
  intros s.
  destruct (refcount_any_order [] [Remove; Add] eq_refl) as (Hc & _ & Ha & _).
  split; [exact Hc | exact Ha].
Defined.

Lemma add_foreign s :
  foreign (document_listeners (addGlobalMouseListener s)) = foreign (document_listeners s).
Proof.
  unfold addGlobalMouseListener, foreign.
  destruct (listenerRefCount s =? 0); cbn [document_listeners]; [|reflexivity].
  unfold addEventListener.
  destruct (existsb _ _); [reflexivity|].
  rewrite filter_app. cbn. apply app_nil_r.
Qed.

Lemma filter_idem {A} (f : A -> bool) l : filter f (filter f l) = filter f l.
Proof.
  induction l as [|x l IH]; [reflexivity|].
  cbn [filter]. destruct (f x) eqn:Hx; [cbn [filter]; rewrite Hx, IH|]; auto.
Qed.

Lemma remove_foreign s :
  foreign (document_listeners (removeGlobalMouseListener s)) = foreign (document_listeners s).
Proof.
  unfold removeGlobalMouseListener, foreign. cbn [listenerRefCount document_listeners].
  destruct (listenerRefCount s - 1 =? 0); cbn [document_listeners]; [|reflexivity].
  unfold removeEventListener. apply filter_idem.
Qed.

(** X12: adding and removing the global mouse listener never adds, removes,
    duplicates or reorders any other listener of the document. *)
Theorem other_listeners_untouched (ops : list Op) (s : State) :
  foreign (document_listeners (run ops s)) = foreign (document_listeners s).
Proof.
  revert s. induction ops as [|[|] ops IH]; intros s; [reflexivity| |].
  - change (run (Add :: ops) s) with (run ops (addGlobalMouseListener s)).
    rewrite IH. apply add_foreign.
  - change (run (Remove :: ops) s) with (run ops (removeGlobalMouseListener s)).
    rewrite IH. apply remove_foreign.
Qed.

End HooksMoreFacts.

Module PointerFacts.
Import Hooks HooksMore HooksFacts HooksMoreFacts Pointer Mounting.

Lemma onMouseMove_twice ev p : onMouseMove ev (onMouseMove ev p) = onMouseMove ev p.
Proof. reflexivity. Qed.

Lemma dispatch_fold ev ls : forall q,
  List.fold_left
    (fun q r => if String.eqb "mousemove" (fst r) then call_listener (snd r) ev q else q) ls q
  = if List.existsb (same_registration "mousemove" globalMouseMoveHandler) ls
    then onMouseMove ev q
    else q.
Proof.
  induction ls as [|[type l] ls IH]; intros q; [reflexivity|].
  cbn [fold_left existsb fst snd]. unfold same_registration at 1. cbn [fst snd].
  destruct (String.eqb "mousemove" type); cbn [andb].
  - destruct l as [|id]; cbn [call_listener Listener_eqb orb].
    + rewrite IH.
      destruct (existsb (same_registration "mousemove" globalMouseMoveHandler) ls); reflexivity.
    + apply IH.
  - apply IH.
Qed.

Lemma dispatch_registered ev p :
  dispatchMouseMove ev p = if registered (mouse p) then onMouseMove ev p else p.
Proof. unfold dispatchMouseMove, registered. rewrite dispatch_fold. reflexivity. Qed.

Lemma play_tracks ins : forall p,
  linked (mouse p) ->
  linked (mouse (play ins p)) /\
  cursorPositionRef (play ins p)
    = last_tracked (listenerRefCount (mouse p)) (cursorPositionRef p) ins.
Proof.
  induction ins as [|[| |ev] ins IH]; intros p Hl.
  - split; [exact Hl | reflexivity].
  - change (play (Acquire :: ins) p) with (play ins (input_step p Acquire)).
    destruct (IH (input_step p Acquire)) as [Hl' Hc]; [apply add_linked; exact Hl|].
    split; [exact Hl'|]. rewrite Hc. cbn [input_step mouse cursorPositionRef last_tracked].
    now rewrite add_count.
  - change (play (Release :: ins) p) with (play ins (input_step p Release)).
    destruct (IH (input_step p Release)) as [Hl' Hc]; [apply remove_linked; exact Hl|].
    split; [exact Hl'|]. rewrite Hc. cbn [input_step mouse cursorPositionRef last_tracked].
    now rewrite remove_count.
  - change (play (MouseMove ev :: ins) p) with (play ins (input_step p (MouseMove ev))).
    cbn [input_step]. rewrite dispatch_registered.
    pose proof (registered_holds (mouse p) Hl) as Hreg.
    destruct (registered (mouse p)) eqn:Hr.
    + destruct (IH (onMouseMove ev p)) as [Hl' Hc]; [exact Hl|].
      split; [exact Hl'|]. rewrite Hc. cbn [onMouseMove mouse cursorPositionRef last_tracked].
      replace (0 <? listenerRefCount (mouse p)) with true
        by (symmetry; apply Z.ltb_lt, Hreg; reflexivity).
      destruct ev; reflexivity.
    + destruct (IH p Hl) as [Hl' Hc]. split; [exact Hl'|]. rewrite Hc.
      cbn [last_tracked].
      replace (0 <? listenerRefCount (mouse p)) with false; [reflexivity|].
      symmetry. apply Z.ltb_ge. destruct (Z.lt_ge_cases 0 (listenerRefCount (mouse p))); [|lia].
      apply Hreg in H. discriminate.
Qed.

(** X14: [cursorPositionRef] holds the position of the last mouse move made
    while the additions to the counter outnumbered the removals, and the
    origin if there was none; moves made at other times are not seen. *)
Theorem cursor_tracks_while_acquired (others : list registration) (ins : list Input) :
  registered (initial others) = false ->
  cursorPositionRef (play ins (loaded others)) = last_tracked 0 origin ins.
Proof.
  intros Hfree.
  destruct (play_tracks ins (loaded others)) as [_ Hc]; [apply initial_linked; exact Hfree|].
  exact Hc.
Qed.

Lemma cursor_tracks_while_acquired_witness :
  cursorPositionRef
    (play [MouseMove (at_ 5 5); Acquire; MouseMove (at_ 7 9); Release; MouseMove (at_ 1 1)]
          (loaded [("click"%string, otherListener 3)]))
  = at_ 7 9.
Proof.
  rewrite (cursor_tracks_while_acquired [("click"%string, otherListener 3)] _ eq_refl).
  reflexivity.
Defined.

(** X16: the hover state [useIsHovered] sets at layout for a node is true
    exactly when the last tracked cursor position lies within the node's
    bounding rectangle, its four sides included. *)
Theorem hover_at_layout (others : list registration) (ins : list Input) (domRect : DOMRect) :
  registered (initial others) = false ->
  let cursor := last_tracked 0 origin ins in
  useIsHovered_layout (Some domRect) (cursorPositionRef (play ins (loaded others))) = true <->
  (QArith_base.Qle (rect_left domRect) (pageX cursor) /\
   QArith_base.Qle (pageX cursor) (rect_right domRect)) /\
  (QArith_base.Qle (rect_top domRect) (pageY cursor) /\
   QArith_base.Qle (pageY cursor) (rect_bottom domRect)).
Proof.
  intros Hfree cursor.
  rewrite (proj2 (play_tracks ins (loaded others) (initial_linked others Hfree))).
  change (last_tracked (listenerRefCount (mouse (loaded others)))
            (cursorPositionRef (loaded others)) ins) with cursor.
  unfold useIsHovered_layout. rewrite !andb_true_iff, !QArith_base.Qle_bool_iff. tauto.
Qed.

Lemma moves_only_untracked seen moves : forall users,
  users <= 0 -> last_tracked users seen (List.map MouseMove moves) = seen.
Proof.
  induction moves as [|ev moves IH]; intros users Hu; [reflexivity|].
  cbn [List.map last_tracked]. destruct (Z.ltb_spec 0 users); [lia|]. now apply IH.
Qed.

(** X15: before the listener is first acquired no mouse move is recorded:
    the position stays at the origin, so the hover state [useIsHovered]
    computes at layout is the one for a cursor at the origin. *)
Theorem moves_before_first_acquire (others : list registration) (moves : list Position)
    (node : option DOMRect) :
  registered (initial others) = false ->
  cursorPositionRef (play (List.map MouseMove moves) (loaded others)) = origin /\
  useIsHovered_layout node (cursorPositionRef (play (List.map MouseMove moves) (loaded others)))
    = useIsHovered_layout node origin.
Proof.
  intros Hfree.
  rewrite (proj2 (play_tracks _ (loaded others) (initial_linked others Hfree))).
  cbn [loaded mouse cursorPositionRef initial listenerRefCount].
  rewrite moves_only_untracked by lia. split; reflexivity.
Qed.

Lemma moves_before_first_acquire_witness :
  cursorPositionRef (play [MouseMove (at_ 40 40); MouseMove (at_ 41 40)] (loaded [])) = origin.
Proof.
  exact (proj1 (moves_before_first_acquire [] [at_ 40 40; at_ 41 40] None eq_refl)).
Defined.

Lemma hover_at_layout_witness :
  useIsHovered_layout
    (Some {| rect_left := QArith_base.Qmake 0 1; rect_right := QArith_base.Qmake 10 1;
             rect_top := QArith_base.Qmake 0 1; rect_bottom := QArith_base.Qmake 10 1 |})
    (cursorPositionRef (play [Acquire; MouseMove (at_ 10 3)] (loaded []))) = true.
Proof.
  apply (hover_at_layout [] [Acquire; MouseMove (at_ 10 3)] _ eq_refl).
  cbn. unfold QArith_base.Qle. cbn. lia.
Defined.

(** ** Components mounting and unmounting *)

Lemma without_length c l :
  existsb (Nat.eqb c) l = true -> List.length l = S (List.length (without c l)).
Proof.
  induction l as [|x l IH]; [discriminate|].
  cbn [existsb without]. destruct (Nat.eqb c x); cbn [orb List.length]; [reflexivity|].
  intros H. now rewrite (IH H).
Qed.

Lemma live_counts es : forall t,
  linked (listener t) ->
  listenerRefCount (listener t) = Z.of_nat (List.length (mounted t)) ->
  linked (listener (live es t)) /\
  listenerRefCount (listener (live es t)) = Z.of_nat (List.length (mounted (live es t))).
Proof.
  induction es as [|[c|c] es IH]; intros t Hl Hc.
  - split; assumption.
  - change (live (Mount c :: es) t) with (live es (lifecycle_step t (Mount c))).
    apply IH; cbn [lifecycle_step]; destruct (existsb (Nat.eqb c) (mounted t));
      cbn [listener mounted]; trivial.
    + apply add_linked; exact Hl.
    + unfold useCursorPositionRef_effect. rewrite add_count, Hc. cbn [List.length]. lia.
  - change (live (Unmount c :: es) t) with (live es (lifecycle_step t (Unmount c))).
    apply IH; cbn [lifecycle_step]; destruct (existsb (Nat.eqb c) (mounted t)) eqn:Hin;
      cbn [listener mounted]; trivial.
    + apply remove_linked; exact Hl.
    + unfold useCursorPositionRef_cleanup. rewrite remove_count, Hc.
      rewrite (without_length c (mounted t) Hin). lia.
Qed.

(** X13: with components using [useCursorPositionRef] mounting and
    unmounting in any order, the counter is the number of components
    mounted, and the handler is registered, once, exactly while at least one
    is mounted. *)
Theorem listener_follows_mounted (others : list registration) (es : list Lifecycle) :
  registered (initial others) = false ->
  let t := live es (empty_tree others) in
  listenerRefCount (listener t) = Z.of_nat (List.length (mounted t)) /\
  (registered (listener t) = true <-> mounted t <> []) /\
  attached (listener t) = match mounted t with [] => 0%nat | _ :: _ => 1%nat end.
Proof.
  intros Hfree t.
  destruct (live_counts es (empty_tree others)) as [Hl Hc];
    [apply initial_linked; exact Hfree | reflexivity |].
  fold t in Hl, Hc. split; [exact Hc|]. split.
  - rewrite (registered_holds _ Hl), Hc. destruct (mounted t); cbn [List.length]; split;
      intros; try lia; congruence.
  - destruct Hl as [Ha _]. rewrite Ha, Hc. unfold holds.
    destruct (mounted t); cbn [List.length]; [reflexivity|].
    destruct (Z.ltb_spec 0 (Z.of_nat (S (List.length l)))); [reflexivity | lia].
Qed.

Lemma listener_follows_mounted_witness :
  let t := live [Mount 1; Mount 2; Unmount 1; Unmount 1; Mount 2] (empty_tree []) in
  listenerRefCount (listener t) = 1 /\ registered (listener t) = true.
Proof.
  intros t.
  destruct (listener_follows_mounted [] [Mount 1; Mount 2; Unmount 1; Unmount 1; Mount 2] eq_refl)
    as (Hc & Hreg & _).
  split; [exact Hc|]. apply Hreg. discriminate.
Defined.

End PointerFacts.

Module ClickAwayFacts.
Import Hooks HooksFacts ClickAway.






End ClickAwayFacts.

Module PromiseValueFacts.
Import PromiseValue.

Lemma dispose_latest_length flags : List.length (dispose_latest flags) = List.length flags.
Proof.
  induction flags as [|f [|g flags] IH]; [reflexivity | reflexivity |].
  cbn [dispose_latest List.length] in *. now rewrite IH.
Qed.

Lemma dispose_latest_earlier flags k :
  (S k < List.length flags)%nat ->
  List.nth_error (dispose_latest flags) k = List.nth_error flags k.
Proof.
  revert k. induction flags as [|f [|g flags] IH]; intros k Hk; [reflexivity| cbn in Hk; lia |].
  destruct k as [|k]; [reflexivity|].
  change (dispose_latest (f :: g :: flags)) with (f :: dispose_latest (g :: flags)).
  cbn [List.nth_error]. apply IH. cbn [List.length] in *. lia.
Qed.

Lemma dispose_latest_last flags :
  flags <> [] ->
  List.nth_error (dispose_latest flags) (Nat.pred (List.length flags)) = Some true.
Proof.
  induction flags as [|f [|g flags] IH]; intros Hne; [congruence | reflexivity |].
  change (dispose_latest (f :: g :: flags)) with (f :: dispose_latest (g :: flags)).
  cbn [List.length Nat.pred List.nth_error]. apply IH. discriminate.
Qed.

Lemma dispose_latest_all flags :
  earlier_disposed flags ->
  forall k, (k < List.length flags)%nat -> List.nth_error (dispose_latest flags) k = Some true.
Proof.
  intros He k Hk. destruct (Nat.eq_dec k (Nat.pred (List.length flags))) as [->|Hneq].
  - apply dispose_latest_last. destruct flags; [cbn in Hk; lia | discriminate].
  - rewrite dispose_latest_earlier by lia. apply He. lia.
Qed.

Lemma rerenders_snoc {T} (es : list (Event T)) e :
  rerenders (es ++ [e]) = (rerenders es + match e with Rerender => 1 | _ => 0 end)%nat.
Proof.
  unfold rerenders. rewrite filter_app, length_app. destruct e; reflexivity.
Qed.

Lemma gone_snoc {T} (es : list (Event T)) e :
  gone (es ++ [e]) = match e with
                     | Rerender => false
                     | Unmount => true
                     | Settled _ _ => gone es
                     end.
Proof. unfold gone. rewrite fold_left_app. reflexivity. Qed.

Lemma history_tidy {T} (es : list (Event T)) : tidy es (history es mount).
Proof.
  induction es as [|e es IH] using rev_ind.
  - split; [reflexivity | intros k Hk; cbn in Hk; lia | reflexivity].
  - unfold history. rewrite fold_left_app. fold (history es (@mount T)).
    destruct IH as [Hlen Hearlier Hlatest]. cbn [fold_left].
    destruct e as [| |run v]; cbn [step].
    + split; cbn [disposed]; rewrite ?rerenders_snoc, ?gone_snoc.
      * rewrite length_app, dispose_latest_length, Hlen. cbn. lia.
      * intros k Hk. rewrite length_app, dispose_latest_length in Hk. cbn in Hk.
        rewrite nth_error_app1 by (rewrite dispose_latest_length; lia).
        apply dispose_latest_all; [exact Hearlier | lia].
      * rewrite nth_error_app2 by (rewrite dispose_latest_length; lia).
        rewrite dispose_latest_length, Hlen.
        replace (rerenders es + 1 - S (rerenders es))%nat with 0%nat by lia. reflexivity.
    + split; cbn [disposed]; rewrite ?rerenders_snoc, ?gone_snoc, ?Nat.add_0_r.
      * rewrite dispose_latest_length. exact Hlen.
      * intros k Hk. rewrite dispose_latest_length in Hk.
        apply dispose_latest_all; [exact Hearlier | lia].
      * apply dispose_latest_all; [exact Hearlier | lia].
    + assert (Hsame : disposed
                        match nth_error (disposed (history es mount)) run with
                        | Some false => {| value := Some v; disposed := disposed (history es mount) |}
                        | _ => history es mount
                        end = disposed (history es (@mount T))).
      { destruct (nth_error (disposed (history es mount)) run) as [[|]|]; reflexivity. }
      split; rewrite Hsame, ?rerenders_snoc, ?gone_snoc, ?Nat.add_0_r; assumption.
Qed.

(** X18: in [usePromiseValueOrNull], after any history of promise changes,
    unmounts and resolutions, the resolution of an earlier promise, or of any
    promise once the component is unmounted, changes nothing; the resolution
    of the latest promise of a mounted component sets the value. *)
Theorem only_latest_promise_sets_value {T} (es : list (Event T)) (run : nat) (v : T) :
  let h := history es mount in
  (run <> rerenders es \/ gone es = true -> step h (Settled run v) = h) /\
  (run = rerenders es /\ gone es = false -> value (step h (Settled run v)) = Some v).
Proof.
  intros h. destruct (history_tidy es) as [Hlen Hearlier Hlatest]. fold h in Hlen, Hearlier, Hlatest.
  cbn [step]. split.
  - intros [Hrun | Hgone].
    + destruct (Nat.lt_ge_cases run (rerenders es)) as [Hlt | Hge].
      * rewrite (Hearlier run) by lia. reflexivity.
      * replace (nth_error (disposed h) run) with (@None bool); [reflexivity|].
        symmetry. apply nth_error_None. lia.
    + destruct (Nat.eq_dec run (rerenders es)) as [->|Hrun].
      * rewrite Hlatest, Hgone. reflexivity.
      * destruct (Nat.lt_ge_cases run (rerenders es)) as [Hlt | Hge].
        -- rewrite (Hearlier run) by lia. reflexivity.
        -- replace (nth_error (disposed h) run) with (@None bool); [reflexivity|].
           symmetry. apply nth_error_None. lia.
  - intros [-> Hgone]. rewrite Hlatest, Hgone. reflexivity.
Qed.

End PromiseValueFacts.
